(** * skin_merge: transplanting a skinCluster from one mesh onto another

    A shallow embedding of [skin_merge.py].  The script is a thin layer
    over a host scene graph (nodes, plugs, connections); the host is
    modelled as an explicit [scene] record, the script's functions as
    computations over it.  Read-only functions live in a reader monad
    [R], functions that touch the scene in a state monad [M]; both carry
    Python exceptions.

    Conventions of the host model:
    - a node is identified by a [handle]; a node's long name identifies
      it uniquely, so a name lookup is the identity on handles plus an
      existence test;
    - an array attribute ([bindPreMatrix], [matrix]) is sparse: a slot
      either holds an element or not, and iterating the attribute yields
      the existing elements in index order;
    - [x.isConnected()] on an array element holds exactly when the
      element has an incoming connection, which is how the script uses it;
      [x.get()] is the value the element stores;
    - a skinCluster stores one weight per vertex and influence index, a
      missing entry being 0; [getWeights] and [setWeights] lay a table out
      row by row, a row per vertex of the component set, a column per
      influence index;
    - a deformer is bound to a shape when it is in the shape's history
      and a grouping node feeds both its [input[0].groupId] plug and a
      plug of the shape, which is what [get_skin_cluster] looks for;
      geometry data does not flow through the model;
    - every mutating call the script makes is also appended to a
      [journal], one entry per call, so that the order of mutations can
      be stated;
    - the script is Python 2 ([xrange], list-returning [zip]). *)

From Stdlib Require Import QArith.
From stdpp Require Import gmap strings list.

Close Scope Q_scope.
Open Scope nat_scope.

(** ** Data model *)

Abbreviation handle := nat (only parsing).

(** Weights and matrix entries are doubles that the script only copies;
    rationals stand for them. *)
Abbreviation mmatrix := (list Q) (only parsing).

Inductive attr :=
  | A_bindPreMatrix (index : nat)
  | A_matrix (index : nat)
  | A_input0_groupId
  | A_other (attr_name : string).

#[global] Instance attr_eq_dec : EqDecision attr.
Proof. solve_decision. Defined.

Abbreviation plug := (handle * attr)%type (only parsing).

(** A sparse array attribute: position = logical index. *)
Abbreviation multi A := (list (option A)) (only parsing).

Definition multi_get {A} (m : multi A) (i : nat) : option A :=
  match m !! i with Some (Some a) => Some a | _ => None end.

Definition multi_set {A} (i : nat) (a : A) (m : multi A) : multi A :=
  if decide (i < length m) then <[i := Some a]> m
  else m ++ replicate (i - length m) None ++ [Some a].

Fixpoint multi_elements_from {A} (k : nat) (m : multi A) : list (nat * A) :=
  match m with
  | [] => []
  | Some a :: m' => (k, a) :: multi_elements_from (S k) m'
  | None :: m' => multi_elements_from (S k) m'
  end.

Definition multi_elements {A} (m : multi A) : list (nat * A) :=
  multi_elements_from 0 m.

Record skin_data := SkinData {
  weightDistribution : nat;
  bindPreMatrix : multi mmatrix;
  matrix : multi mmatrix;
  weightList : gmap (nat * nat) Q;   (* (vertex, influence index) -> weight *)
  influenceCount : nat               (* the count getWeights reports *)
}.

Inductive geometry :=
  | Mesh (numVertices : nat)
  | NurbsSurface
  | NurbsCurve
  | OtherShape.

Inductive node_kind :=
  | Transform (shapes : list handle)
  | Shape (parent : handle) (intermediateObject : bool) (geom : geometry)
  | SkinCluster (d : skin_data)
  | OtherNode.

Record node := Node {
  nname : string;
  history : list handle;   (* what listHistory reports for the node *)
  kind : node_kind
}.

Inductive severity := SevInfo | SevWarning | SevError.

Inductive event :=
  | EvSetWeightDistribution (skin : handle) (v : nat)
  | EvSelectClear
  | EvCreateDeformer (skin : handle)
  | EvSetValue (p : plug) (v : mmatrix)
  | EvConnect (src dst : plug)
  | EvSetWeights (skin : handle).

Record scene := Scene {
  nodes : gmap handle node;
  conns : list (plug * plug);          (* (source plug, destination plug) *)
  selection : list handle;
  journal : list event;
  displayed : list (severity * string)
}.

Inductive exn :=
  | ValueError (msg : string)
  | NameError (name : string)
  | AttributeError
  | IndexError
  | TypeError
  | MayaNodeError
  | RuntimeError.

Inductive result (A : Type) :=
  | Ok (a : A)
  | Raise (e : exn).
Arguments Ok {A} a.
Arguments Raise {A} e.

(** ** The two monads *)

Definition R (A : Type) : Type := scene → result A.
Definition M (A : Type) : Type := scene → result A * scene.

#[global] Instance R_ret : MRet R := λ A a _, Ok a.
#[global] Instance R_bind : MBind R := λ A B f m s,
  match m s with Ok a => f a s | Raise e => Raise e end.
#[global] Instance M_ret : MRet M := λ A a s, (Ok a, s).
#[global] Instance M_bind : MBind M := λ A B f m s,
  match m s with
  | (Ok a, s') => f a s'
  | (Raise e, s') => (Raise e, s')
  end.

Definition raiseR {A} (e : exn) : R A := λ _, Raise e.
Definition raise {A} (e : exn) : M A := λ s, (Raise e, s).
Definition liftR {A} (r : R A) : M A := λ s, (r s, s).

(** [o.attribute] on a possibly-None object; [l[i]] on a list. *)
Definition derefR {A} (o : option A) : R A :=
  match o with Some a => mret a | None => raiseR AttributeError end.
Definition indexR {A} (l : list A) (i : nat) : R A :=
  match l !! i with Some a => mret a | None => raiseR IndexError end.

Fixpoint forM_ {A} (l : list A) (f : A → M unit) : M unit :=
  match l with
  | [] => mret tt
  | x :: l' => f x ;; forM_ l' f
  end.

Fixpoint mapR {A B} (f : A → R B) (l : list A) : R (list B) :=
  match l with
  | [] => mret []
  | x :: l' => y ← f x; ys ← mapR f l'; mret (y :: ys)
  end.

Fixpoint filterR {A} (f : A → R bool) (l : list A) : R (list A) :=
  match l with
  | [] => mret []
  | x :: l' => b ← f x; ys ← filterR f l'; mret (if (b : bool) then x :: ys else ys)
  end.

(** ** Host primitives: queries *)

Definition PyNode (ob : handle) : R node := λ s,
  match nodes s !! ob with Some n => Ok n | None => Raise MayaNodeError end.

(** [ob.type() in ['nurbsSurface', 'mesh', 'nurbsCurve']] *)
Definition is_geometry_type (n : node) : bool :=
  match kind n with
  | Shape _ _ (Mesh _) | Shape _ _ NurbsSurface | Shape _ _ NurbsCurve => true
  | _ => false
  end.

Definition getParent (ob : handle) : R handle :=
  n ← PyNode ob;
  match kind n with
  | Shape p _ _ => mret p
  | _ => raiseR AttributeError
  end.

Definition getShapes (ob : handle) : R (list handle) :=
  n ← PyNode ob;
  match kind n with
  | Transform shapes => mret shapes
  | _ => raiseR AttributeError
  end.

Definition intermediateObject_get (x : handle) : R bool :=
  n ← PyNode x;
  match kind n with
  | Shape _ b _ => mret b
  | _ => raiseR AttributeError
  end.

Definition listHistory (ob : handle) : R (list handle) :=
  n ← PyNode ob; mret (history n).

Definition is_skinCluster (s : scene) (h : handle) : bool :=
  match nodes s !! h with
  | Some (Node _ _ (SkinCluster _)) => true
  | _ => false
  end.

(** [pm.ls(l, type='skinCluster')] *)
Definition ls_skinCluster (l : list handle) : R (list handle) := λ s,
  Ok (filter (λ h, is_skinCluster s h = true) l).

(** A shape node that is not flagged as an intermediate object. *)
Definition is_real_shape (s : scene) (x : handle) : bool :=
  match nodes s !! x with
  | Some (Node _ _ (Shape _ false _)) => true
  | _ => false
  end.

Definition conn_inputs (s : scene) (p : plug) : list plug :=
  (filter (λ c : plug * plug, c.2 = p) (conns s)).*1.
Definition conn_outputs (s : scene) (p : plug) : list plug :=
  (filter (λ c : plug * plug, c.1 = p) (conns s)).*2.

Definition inputs (p : plug) : R (list plug) := λ s, Ok (conn_inputs s p).
Definition outputs (p : plug) : R (list plug) := λ s, Ok (conn_outputs s p).
Definition isConnected (p : plug) : R bool := λ s,
  Ok (bool_decide (conn_inputs s p ≠ [])).

Definition skin_of (h : handle) : R skin_data :=
  n ← PyNode h;
  match kind n with
  | SkinCluster d => mret d
  | _ => raiseR AttributeError
  end.

Definition selected : R (list handle) := λ s, Ok (selection s).

(** [om2.MGlobal.getSelectionListByName(name)] followed by
    [getDependNode(0)] / [getDagPath(0)]. *)
Definition getSelectionListByName (name : handle) : R handle := λ s,
  match nodes s !! name with Some _ => Ok name | None => Raise RuntimeError end.

Definition getDagPath (h : handle) : R handle :=
  n ← PyNode h;
  match kind n with
  | Transform _ | Shape _ _ _ => mret h
  | _ => raiseR TypeError
  end.

(** The function-set constructors reject an object of the wrong kind,
    [None] included. *)
Definition MFnSkinCluster (ob : option handle) : R handle := λ s,
  match ob with
  | Some h => if is_skinCluster s h then Ok h else Raise TypeError
  | None => Raise TypeError
  end.

Definition mesh_vertices (s : scene) (h : handle) : option nat :=
  match nodes s !! h with
  | Some (Node _ _ (Shape _ _ (Mesh nv))) => Some nv
  | _ => None
  end.

Definition MFnMesh (ob : option handle) : R handle := λ s,
  match ob with
  | Some h =>
      match mesh_vertices s h with Some _ => Ok h | None => Raise TypeError end
  | None => Raise TypeError
  end.

Definition numVertices (mesh : handle) : R nat := λ s,
  match mesh_vertices s mesh with Some nv => Ok nv | None => Raise RuntimeError end.

(** Row-major addressing of a weight array: one row per component
    vertex, one column per influence index. *)
Definition cells (components influences : list nat) : list (nat * nat) :=
  v ← components; (λ i, (v, i)) <$> influences.

Definition weight_of (d : skin_data) (c : nat * nat) : Q :=
  default 0%Q (weightList d !! c).

(** [MFnSkinCluster.getWeights(path, components, influences)] *)
Definition getWeights_at (fn path : handle) (components influences : list nat)
  : R (list Q) :=
  d ← skin_of fn;
  _ ← getDagPath path;
  mret (weight_of d <$> cells components influences).

(** [MFnSkinCluster.getWeights(path, components)]: all influences, and
    their number. *)
Definition getWeights (fn path : handle) (components : list nat)
  : R (list Q * nat) :=
  d ← skin_of fn;
  ws ← getWeights_at fn path components (seq 0 (influenceCount d));
  mret (ws, influenceCount d).

(** The elements of an array attribute of a skin, as (index, value). *)
Definition bindPreMatrix_elements (skin : handle) : R (list (nat * mmatrix)) :=
  d ← skin_of skin; mret (multi_elements (bindPreMatrix d)).
Definition matrix_elements (skin : handle) : R (list (nat * mmatrix)) :=
  d ← skin_of skin; mret (multi_elements (matrix d)).

(** ** Host primitives: mutations *)

Definition log_event (e : event) (s : scene) : scene :=
  Scene (nodes s) (conns s) (selection s) (journal s ++ [e]) (displayed s).

Definition set_nodes (ns : gmap handle node) (s : scene) : scene :=
  Scene ns (conns s) (selection s) (journal s) (displayed s).

Definition set_skin (h : handle) (nm : string) (hist : list handle) (d : skin_data)
    (s : scene) : scene :=
  set_nodes (<[h := Node nm hist (SkinCluster d)]> (nodes s)) s.

(** [skin.weightDistribution.set(v)] *)
Definition weightDistribution_set (skin : handle) (v : nat) : M unit := λ s,
  match nodes s !! skin with
  | Some (Node nm hist (SkinCluster d)) =>
      (Ok tt,
       log_event (EvSetWeightDistribution skin v)
         (set_skin skin nm hist
            (SkinData v (bindPreMatrix d) (matrix d) (weightList d)
               (influenceCount d)) s))
  | Some _ => (Raise AttributeError, s)
  | None => (Raise MayaNodeError, s)
  end.

(** [pm.select(cl=True)] *)
Definition select_clear : M unit := λ s,
  (Ok tt,
   log_event EvSelectClear
     (Scene (nodes s) (conns s) [] (journal s) (displayed s))).

Definition conn_handles (s : scene) : gset handle :=
  list_to_set (mbind (λ c : plug * plug, [c.1.1; c.2.1]) (conns s)).

(** The handle the host gives the next node it creates. *)
Definition new_handle (s : scene) : handle :=
  fresh (dom (nodes s) ∪ conn_handles s).

Definition empty_skin : skin_data := SkinData 0 [] [] ∅ 0.

(** The geometry [pm.deformer] binds a deformer to when it is given an
    object: the object itself when it is a shape; for a transform, its
    first child shape that is not an intermediate object. *)
Definition deformed_shape (s : scene) (ob : handle) : option handle :=
  match nodes s !! ob with
  | Some (Node _ _ (Shape _ _ _)) => Some ob
  | Some (Node _ _ (Transform shapes)) =>
      head (filter (λ x, is_real_shape s x = true) shapes)
  | _ => None
  end.

(** The handle of the grouping node that comes with a new deformer. *)
Definition grouping_handle (s : scene) : handle :=
  fresh (dom (nodes s) ∪ conn_handles s ∪ {[new_handle s]}).

(** A new deformer [h] enters the history of the shape it deforms as the
    shape's nearest predecessor. *)
Definition thread_history (h : handle) (n : node) : node :=
  Node (nname n)
    (match history n with a :: rest => a :: h :: rest | [] => [h] end)
    (kind n).

(** Binding the deformer [h] to the shape [x]: the shape's history is
    threaded through [h], and a grouping node [g] is created whose
    [groupId] plug feeds [h.input[0].groupId] and the shape. *)
Definition bind_nodes (h g : handle) (name : string) (x : option handle)
    (ns : gmap handle node) : gmap handle node :=
  match x with
  | Some x =>
      alter (thread_history h) x (<[g := Node (name +:+ "GroupId") [] OtherNode]> ns)
  | None => ns
  end.

Definition bind_conns (h g : handle) (x : option handle) (cs : list (plug * plug))
  : list (plug * plug) :=
  match x with
  | Some x =>
      cs ++ [((g, A_other "groupId"), (h, A_input0_groupId));
             ((g, A_other "groupId"), (x, A_other "instObjGroups"))]
  | None => cs
  end.

(** [pm.deformer(target, type='skinCluster', n=name)]: a new skinCluster
    node with no influence yet, bound to the target's geometry the way a
    scene records a binding (and [get_skin_cluster] looks for one): the
    node is in the history of the shape it deforms, and a grouping node
    feeds both its [input[0].groupId] and that shape.  An object with no
    shape to deform gets the node alone.  The list of created deformers
    is returned. *)
Definition deformer_skinCluster (target : handle) (name : string)
  : M (list handle) := λ s,
  match nodes s !! target with
  | Some _ =>
      let h := new_handle s in
      let g := grouping_handle s in
      let x := deformed_shape s target in
      (Ok [h],
       log_event (EvCreateDeformer h)
         (Scene
            (<[h := Node name [] (SkinCluster empty_skin)]>
               (bind_nodes h g name x (nodes s)))
            (bind_conns h g x (conns s))
            (selection s) (journal s) (displayed s)))
  | None => (Raise MayaNodeError, s)
  end.

Definition set_element (a : attr) (v : mmatrix) (d : skin_data) : option skin_data :=
  match a with
  | A_bindPreMatrix i =>
      Some (SkinData (weightDistribution d) (multi_set i v (bindPreMatrix d))
              (matrix d) (weightList d) (influenceCount d))
  | A_matrix i =>
      Some (SkinData (weightDistribution d) (bindPreMatrix d)
              (multi_set i v (matrix d)) (weightList d) (influenceCount d))
  | _ => None
  end.

(** [skin.bindPreMatrix[i].set(v)] / [skin.matrix[i].set(v)] *)
Definition element_set (p : plug) (v : mmatrix) : M unit := λ s,
  match nodes s !! p.1 with
  | Some (Node nm hist (SkinCluster d)) =>
      match set_element p.2 v d with
      | Some d' => (Ok tt, log_event (EvSetValue p v) (set_skin p.1 nm hist d' s))
      | None => (Raise AttributeError, s)
      end
  | Some _ => (Raise AttributeError, s)
  | None => (Raise MayaNodeError, s)
  end.

(** [src >> dst]: connectAttr with force, an input already on [dst] is
    replaced. *)
Definition force_connect (src dst : plug) (cs : list (plug * plug))
  : list (plug * plug) :=
  filter (λ c : plug * plug, c.2 ≠ dst) cs ++ [(src, dst)].

Definition connect (src dst : plug) : M unit := λ s,
  (Ok tt,
   log_event (EvConnect src dst)
     (Scene (nodes s) (force_connect src dst (conns s))
        (selection s) (journal s) (displayed s))).

Definition write_weights (ks : list (nat * nat)) (ws : list Q)
    (wl : gmap (nat * nat) Q) : gmap (nat * nat) Q :=
  foldl (λ m (kw : nat * nat * Q), <[kw.1 := kw.2]> m) wl (zip ks ws).

(** [MFnSkinCluster.setWeights(path, components, influences, weights)]:
    the array is applied positionally, row-major. *)
Definition setWeights (fn path : handle) (components influences : list nat)
    (weights : list Q) : M unit := λ s,
  match nodes s !! fn, getDagPath path s with
  | Some (Node nm hist (SkinCluster d)), Ok _ =>
      (Ok tt,
       log_event (EvSetWeights fn)
         (set_skin fn nm hist
            (SkinData (weightDistribution d) (bindPreMatrix d) (matrix d)
               (write_weights (cells components influences) weights (weightList d))
               (influenceCount d)) s))
  | Some (Node _ _ (SkinCluster _)), Raise e => (Raise e, s)
  | Some _, _ => (Raise TypeError, s)
  | None, _ => (Raise MayaNodeError, s)
  end.

Definition display (sev : severity) (msg : string) : M unit := λ s,
  (Ok tt,
   Scene (nodes s) (conns s) (selection s) (journal s) (displayed s ++ [(sev, msg)])).

(** ** The script *)

(** Names the module binds at its top level (lines 2-4 and the [def]s);
    [om] is not one of them. *)
Inductive pymodule := OpenMaya | OpenMayaAnim | PymelCore.

Definition module_globals : list (string * pymodule) :=
  [("om2", OpenMaya); ("oma2", OpenMayaAnim); ("pm", PymelCore)]%string.

Definition load_global (name : string) : M pymodule :=
  match (list_to_map module_globals : gmap string pymodule) !! name with
  | Some m => mret m
  | None => raise (NameError name)
  end.

(** [m.MGlobal.displayInfo] and its siblings, as a bound function. *)
Definition MGlobal_display (m : pymodule) (sev : severity) : M (string → M unit) :=
  match m with
  | OpenMaya => mret (display sev)
  | _ => raise AttributeError
  end.

(** lines 8-25 *)
Definition get_deform_shape (ob : handle) : R (option handle) :=
  n ← PyNode ob;
  ob ← (if is_geometry_type n then getParent ob else mret ob);
  shapes ← getShapes ob;
  if length shapes =? 1 then
    x ← indexR shapes 0; mret (Some x)
  else
    real_shapes ← filterR (λ x, b ← intermediateObject_get x; mret (negb b)) shapes;
    mret (head real_shapes).

(** lines 52-57: the inner loop over the grouping plug's outputs; it
    returns [Some skin] when the function returns from inside the loop. *)
Fixpoint scan_outputs (ob shape skin : handle) (outps : list plug)
  : M (option handle) :=
  match outps with
  | [] => mret None
  | outp :: rest =>
      let node := outp.1 in
      if bool_decide (node = shape) || bool_decide (node = ob) then
        weightDistribution_set skin 1;;
        mret (Some skin)
      else scan_outputs ob shape skin rest
  end.

(** lines 48-57: the loop over the candidate skins. *)
Fixpoint scan_skins (ob shape : handle) (skins : list handle) : M (option handle) :=
  match skins with
  | [] => mret None
  | skin :: rest =>
      ins ← liftR (inputs (skin, A_input0_groupId));
      groupId ← liftR (indexR ins 0);
      outps ← liftR (outputs groupId);
      r ← scan_outputs ob shape skin outps;
      match r with
      | Some found => mret (Some found)
      | None => scan_skins ob shape rest
      end
  end.

(** lines 29-58 *)
Definition get_skin_cluster (ob : handle) : M (option handle) :=
  shape ← liftR (get_deform_shape ob);
  match shape with
  | None => mret None
  | Some shape =>
      hist ← liftR (listHistory shape);
      skins ← liftR (ls_skinCluster hist);
      if 0 <? length skins then scan_skins ob shape skins else mret None
  end.

(** lines 62-72 *)
Definition log (msg : string) (warn error : bool) : M unit :=
  if warn && error then
    raise (ValueError "Please specify only one of warn / error.")
  else
    om ← load_global "om";
    log_func ← MGlobal_display om SevInfo;
    log_func ←
      (if warn then om ← load_global "om"; MGlobal_display om SevWarning
       else if error then om ← load_global "om"; MGlobal_display om SevError
       else mret log_func);
    log_func msg.

(** lines 77-104 *)
Definition get_mobject (name : handle) : R handle :=
  getSelectionListByName name.

Definition get_dag_path (name : handle) : R handle :=
  sel ← getSelectionListByName name; getDagPath sel.

Definition get_mfn_skin (skin_ob : option handle) : R handle :=
  skin_ob ← match skin_ob with
            | Some h => h' ← get_mobject h; mret (Some h')
            | None => mret None
            end;
  MFnSkinCluster skin_ob.

Definition get_mfn_mesh (mesh_ob : option handle) : R handle :=
  mesh_ob ← match mesh_ob with
            | Some h => h' ← get_mobject h; mret (Some h')
            | None => mret None
            end;
  MFnMesh mesh_ob.

Definition get_complete_components (mesh_ob : handle) : R (list nat) :=
  nv ← numVertices mesh_ob; mret (seq 0 nv).

(** [x.inputs(plugs=True)[0] if x.isConnected() else None] *)
Definition element_input (x : plug) : R (option plug) :=
  c ← isConnected x;
  if (c : bool) then ins ← inputs x; p ← indexR ins 0; mret (Some p)
  else mret None.

Definition zip3 {A B C} (l1 : list A) (l2 : list B) (l3 : list C)
  : list (A * B * C) := zip (zip l1 l2) l3.

(** lines 107-143 *)
Definition move_skin (source target : handle) : M unit :=
  source_shape ← liftR (get_deform_shape source);
  source_shape_name ← liftR (derefR source_shape);
  source_dp ← liftR (get_dag_path source_shape_name);
  source_skin ← get_skin_cluster source;
  source_mfn ← liftR (get_mfn_skin source_skin);
  source_shape2 ← liftR (get_deform_shape source);
  source_mesh ← liftR (get_mfn_mesh source_shape2);
  components ← liftR (get_complete_components source_mesh);
  '(weights, influence_count) ← liftR (getWeights source_mfn source_dp components);
  select_clear;;
  source_skin ← liftR (derefR source_skin);
  source_skin_name ← liftR (n ← PyNode source_skin; mret (nname n));
  created ← deformer_skinCluster target ("MERGED__" +:+ source_skin_name);
  target_skin ← liftR (indexR created 0);
  bind_elems ← liftR (bindPreMatrix_elements source_skin);
  bind_inputs ← liftR (mapR (λ x, element_input (source_skin, A_bindPreMatrix x.1)) bind_elems);
  bind_elems ← liftR (bindPreMatrix_elements source_skin);
  let bind_values := bind_elems.*2 in
  mat_elems ← liftR (matrix_elements source_skin);
  mat_inputs ← liftR (mapR (λ x, element_input (source_skin, A_matrix x.1)) mat_elems);
  mat_elems ← liftR (matrix_elements source_skin);
  let mat_values := mat_elems.*2 in
  forM_ (zip3 (seq 0 influence_count) bind_values mat_values)
    (λ '(index, bind_value, mat_value),
       element_set (target_skin, A_bindPreMatrix index) bind_value;;
       element_set (target_skin, A_matrix index) mat_value);;
  forM_ (zip3 (seq 0 influence_count) bind_inputs mat_inputs)
    (λ '(index, bind_input, mat_input),
       match bind_input with
       | Some p => connect p (target_skin, A_bindPreMatrix index)
       | None => mret tt
       end;;
       match mat_input with
       | Some p => connect p (target_skin, A_matrix index)
       | None => mret tt
       end);;
  target_mfn ← liftR (get_mfn_skin (Some target_skin));
  target_shape ← liftR (get_deform_shape target);
  target_mesh ← liftR (get_mfn_mesh target_shape);
  target_shape ← liftR (get_deform_shape target);
  target_shape_name ← liftR (derefR target_shape);
  target_dp ← liftR (get_dag_path target_shape_name);
  components ← liftR (get_complete_components target_mesh);
  let all_indices := seq 0 influence_count in
  setWeights target_mfn target_dp components all_indices weights.

Definition node_name (s : scene) (h : handle) : string :=
  match nodes s !! h with Some n => nname n | None => EmptyString end.

(** lines 149-160 *)
Definition main : M unit :=
  items ← liftR selected;
  if length items =? 2 then
    source ← liftR (indexR items 0);
    target ← liftR (indexR items 1);
    move_skin source target;;
    msg ← liftR (λ s, Ok ("+ SkinMerge: Complete. Merged skin from "
                           +:+ node_name s source +:+ " onto "
                           +:+ node_name s target +:+ "."));
    log msg false false
  else
    log "-- Please select a skinned mesh and a target mesh." false true.

(** ** Notions used to state the properties *)

(** The transform whose child shapes [get_deform_shape] enumerates:
    the object itself, or its parent when the object is a shape. *)
Definition transform_of (ob : handle) : R handle :=
  n ← PyNode ob;
  if is_geometry_type n then getParent ob else mret ob.

Definition flagged_intermediate (s : scene) (x : handle) : Prop :=
  intermediateObject_get x s = Ok true.
Definition non_intermediate (s : scene) (x : handle) : Prop :=
  intermediateObject_get x s = Ok false.

(** The candidates [get_skin_cluster] examines, in history order. *)
Definition candidates (s : scene) (hist : list handle) : list handle :=
  filter (λ h, is_skinCluster s h = true) hist.

(** The plug feeding a skin's [input[0].groupId], when there is one. *)
Definition grouping_plug (s : scene) (skin : handle) : option plug :=
  head (conn_inputs s (skin, A_input0_groupId)).

Definition reaches_any (ob shape : handle) (outps : list plug) : bool :=
  existsb (λ outp : plug, bool_decide (outp.1 = shape) || bool_decide (outp.1 = ob))
    outps.

(** Some output of the grouping plug [g] lands on the deform shape or
    on the object. *)
Definition reaches (s : scene) (ob shape : handle) (g : plug) : bool :=
  reaches_any ob shape (conn_outputs s g).

Definition not_reaching (s : scene) (ob shape skin : handle) : Prop :=
  ∃ g, grouping_plug s skin = Some g ∧ reaches s ob shape g = false.

(** The scene after [skin.weightDistribution.set(v)] on a skinCluster. *)
Definition force_distribution (skin : handle) (v : nat) (s : scene) : scene :=
  match nodes s !! skin with
  | Some (Node nm hist (SkinCluster d)) =>
      log_event (EvSetWeightDistribution skin v)
        (set_skin skin nm hist
           (SkinData v (bindPreMatrix d) (matrix d) (weightList d)
              (influenceCount d)) s)
  | _ => s
  end.

Definition is_skin_node (n : node) : Prop :=
  match kind n with SkinCluster _ => True | _ => False end.

Definition node_sim (n n' : node) : Prop :=
  kind n' = kind n ∨ (is_skin_node n ∧ is_skin_node n').

(** The second scene extends the first on the DAG: every node of the
    first is in the second, of the same kind (a transform with the same
    children, a shape with the same parent, flag and geometry) or, for a
    skinCluster, still a skinCluster. *)
Definition dag_le (s s' : scene) : Prop :=
  ∀ h n, nodes s !! h = Some n → ∃ n', nodes s' !! h = Some n' ∧ node_sim n n'.

(** A query is monotone when a result it gives survives such an
    extension. *)
Definition mono {A} (r : R A) : Prop :=
  ∀ s s' a, dag_le s s' → r s = Ok a → r s' = Ok a.

(** What the two loops of [move_skin] do to the new skinCluster. *)
Definition write_slot (d : skin_data) (x : nat * mmatrix * mmatrix) : skin_data :=
  SkinData (weightDistribution d) (multi_set x.1.1 x.1.2 (bindPreMatrix d))
    (multi_set x.1.1 x.2 (matrix d)) (weightList d) (influenceCount d).

Definition write_values (l : list (nat * mmatrix * mmatrix)) (d : skin_data)
  : skin_data := foldl write_slot d l.

Definition value_events (t : handle) (l : list (nat * mmatrix * mmatrix))
  : list event :=
  x ← l; [EvSetValue (t, A_bindPreMatrix x.1.1) x.1.2;
          EvSetValue (t, A_matrix x.1.1) x.2].

Definition wire_to (dst : plug) (o : option plug) (cs : list (plug * plug))
  : list (plug * plug) :=
  match o with Some p => force_connect p dst cs | None => cs end.

Definition wire_slot (t : handle) (cs : list (plug * plug))
    (x : nat * option plug * option plug) : list (plug * plug) :=
  wire_to (t, A_matrix x.1.1) x.2 (wire_to (t, A_bindPreMatrix x.1.1) x.1.2 cs).

Definition wire (t : handle) (l : list (nat * option plug * option plug))
    (cs : list (plug * plug)) : list (plug * plug) :=
  foldl (wire_slot t) cs l.

Definition connect_event (dst : plug) (o : option plug) : list event :=
  match o with Some p => [EvConnect p dst] | None => [] end.

Definition connect_events (t : handle) (l : list (nat * option plug * option plug))
  : list event :=
  x ← l; connect_event (t, A_bindPreMatrix x.1.1) x.1.2
         ++ connect_event (t, A_matrix x.1.1) x.2.

(** The lists the script builds from the source skin (lines 121-124),
    zipped with the index range as the loops zip them. *)
Definition bind_values (d : skin_data) : list mmatrix :=
  (multi_elements (bindPreMatrix d)).*2.
Definition mat_values (d : skin_data) : list mmatrix :=
  (multi_elements (matrix d)).*2.
Definition bind_inputs (s : scene) (skin : handle) (d : skin_data)
  : list (option plug) :=
  (λ x, head (conn_inputs s (skin, A_bindPreMatrix x.1)))
    <$> multi_elements (bindPreMatrix d).
Definition mat_inputs (s : scene) (skin : handle) (d : skin_data)
  : list (option plug) :=
  (λ x, head (conn_inputs s (skin, A_matrix x.1)))
    <$> multi_elements (matrix d).

Definition source_values (d : skin_data) : list (nat * mmatrix * mmatrix) :=
  zip3 (seq 0 (influenceCount d)) (bind_values d) (mat_values d).
Definition source_inputs (s : scene) (skin : handle) (d : skin_data)
  : list (nat * option plug * option plug) :=
  zip3 (seq 0 (influenceCount d)) (bind_inputs s skin d) (mat_inputs s skin d).

(** The weight array [getWeights] reads from a skin over [nv] vertices. *)
Definition weights_of (d : skin_data) (nv : nat) : list Q :=
  weight_of d <$> cells (seq 0 nv) (seq 0 (influenceCount d)).

(** The skinCluster [move_skin] leaves on the target. *)
Definition transplanted_skin (s : scene) (skin : handle) (d : skin_data)
    (nvs nvt : nat) : skin_data :=
  let dt := write_values (source_values d) empty_skin in
  SkinData (weightDistribution dt) (bindPreMatrix dt) (matrix dt)
    (write_weights (cells (seq 0 nvt) (seq 0 (influenceCount d)))
       (weights_of d nvs) (weightList dt))
    (influenceCount dt).

(** The scene a complete run of [move_skin] on [target] leaves: [skin]
    is the source skinCluster (named [nm], with data [d]), [nvs] and
    [nvt] the vertex counts of the source and target deform shapes. *)
Definition transplant_result (s : scene) (target skin : handle) (nm : string)
    (hist : list handle) (d : skin_data) (nvs nvt : nat) : scene :=
  let t := new_handle s in
  let g := grouping_handle s in
  let x := deformed_shape s target in
  Scene
    (<[t := Node ("MERGED__" +:+ nm) [] (SkinCluster (transplanted_skin s skin d nvs nvt))]>
       (bind_nodes t g ("MERGED__" +:+ nm) x
          (<[skin := Node nm hist
                       (SkinCluster (SkinData 1 (bindPreMatrix d) (matrix d)
                                       (weightList d) (influenceCount d)))]>
             (nodes s))))
    (wire t (source_inputs s skin d) (bind_conns t g x (conns s)))
    []
    (journal s
       ++ [EvSetWeightDistribution skin 1; EvSelectClear; EvCreateDeformer t]
       ++ value_events t (source_values d)
       ++ connect_events t (source_inputs s skin d)
       ++ [EvSetWeights t])
    (displayed s).

(** A computation is silent when it displays nothing. *)
Definition silent {A} (m : M A) : Prop :=
  ∀ s, displayed (m s).2 = displayed s.

(** The connections the second loop adds. *)
Definition added_to (dst : plug) (o : option plug) : list (plug * plug) :=
  match o with Some p => [(p, dst)] | None => [] end.

Definition added_conns (t : handle) (l : list (nat * option plug * option plug))
  : list (plug * plug) :=
  x ← l; added_to (t, A_bindPreMatrix x.1.1) x.1.2
         ++ added_to (t, A_matrix x.1.1) x.2.

Definition slot_of (t : handle) (i : nat) (p : plug) : Prop :=
  p = (t, A_bindPreMatrix i) ∨ p = (t, A_matrix i).

(** Observations on a scene: the weight a skin stores for a vertex and
    an influence, and the value an array element of a skin holds. *)
Definition skin_weight (s : scene) (skin v i : nat) : option Q :=
  match nodes s !! skin with
  | Some (Node _ _ (SkinCluster d)) => Some (weight_of d (v, i))
  | _ => None
  end.

Definition slot_value (s : scene) (p : plug) : option mmatrix :=
  match nodes s !! p.1 with
  | Some (Node _ _ (SkinCluster d)) =>
      match p.2 with
      | A_bindPreMatrix i => multi_get (bindPreMatrix d) i
      | A_matrix i => multi_get (matrix d) i
      | _ => None
      end
  | _ => None
  end.


(** A child whose [intermediateObject] flag can be read. *)
Definition flag_readable (s : scene) (x : handle) : Prop :=
  ∃ b, intermediateObject_get x s = Ok b.

(** How many slots the two loops of [move_skin] go through. *)
Definition copied_slots (d : skin_data) : nat :=
  influenceCount d `min` (length (bind_values d) `min` length (mat_values d)).

(** lines 137-143 of [move_skin]: the weights are written onto the new
    skinCluster. *)
Definition set_target_weights (target target_skin : handle)
    (influence_count : nat) (weights : list Q) : M unit :=
  target_mfn ← liftR (get_mfn_skin (Some target_skin));
  target_shape ← liftR (get_deform_shape target);
  target_mesh ← liftR (get_mfn_mesh target_shape);
  target_shape ← liftR (get_deform_shape target);
  target_shape_name ← liftR (derefR target_shape);
  target_dp ← liftR (get_dag_path target_shape_name);
  components ← liftR (get_complete_components target_mesh);
  let all_indices := seq 0 influence_count in
  setWeights target_mfn target_dp components all_indices weights.

(** The scene when line 137 is reached: the new skinCluster has its
    values and connections, and no weights yet. *)
Definition wired_result (s : scene) (target skin : handle) (nm : string)
    (hist : list handle) (d : skin_data) : scene :=
  let t := new_handle s in
  let g := grouping_handle s in
  let x := deformed_shape s target in
  Scene
    (<[t := Node ("MERGED__" +:+ nm) []
              (SkinCluster (write_values (source_values d) empty_skin))]>
       (bind_nodes t g ("MERGED__" +:+ nm) x
          (<[skin := Node nm hist
                       (SkinCluster (SkinData 1 (bindPreMatrix d) (matrix d)
                                       (weightList d) (influenceCount d)))]>
             (nodes s))))
    (wire t (source_inputs s skin d) (bind_conns t g x (conns s)))
    []
    (journal s
       ++ [EvSetWeightDistribution skin 1; EvSelectClear; EvCreateDeformer t]
       ++ value_events t (source_values d)
       ++ connect_events t (source_inputs s skin d))
    (displayed s).

(** A journal entry of a write addressed to the node [t]: a value set
    on one of its plugs, a connection into one of its plugs, or its
    weights. *)
Definition event_on (t : handle) (e : event) : Prop :=
  match e with
  | EvSetValue p _ => p.1 = t
  | EvConnect _ dst => dst.1 = t
  | EvSetWeights skin => skin = t
  | _ => False
  end.

(** ** Example scenes

    [pCube1] (1) is skinned: its deform shape (2) has two skinClusters
    in its history, [skinCluster2] (11), whose grouping plug feeds the
    intermediate shape (3) only, and [skinCluster1] (10), whose grouping
    plug feeds the deform shape.  [pCube2] (4) is a plain mesh with the
    same vertex count; [pCube3] (6) has only intermediate shapes.
    [skinCluster1] has three influences; the third is not connected and
    has the identity as bind value. *)

Definition identity_matrix : list Q :=
  [1; 0; 0; 0;  0; 1; 0; 0;  0; 0; 1; 0;  0; 0; 0; 1]%Q.
Definition offset_matrix : list Q :=
  [1; 0; 0; 0;  0; 1; 0; 0;  0; 0; 1; 0;  2; 0; (1#2); 1]%Q.

Definition demo_skin : skin_data :=
  SkinData 0
    [Some offset_matrix; Some identity_matrix; Some identity_matrix]
    [Some identity_matrix; Some offset_matrix; Some identity_matrix]
    (list_to_map [((0, 0), (1#2)%Q); ((0, 1), (1#2)%Q); ((1, 2), 1%Q); ((2, 0), 1%Q)])
    3.

Definition upstream_skin : skin_data :=
  SkinData 0 [Some identity_matrix] [Some identity_matrix]
    (list_to_map [((0, 0), 1%Q); ((1, 0), 1%Q); ((2, 0), 1%Q)]) 1.

Definition demo_scene : scene :=
  Scene
    (list_to_map
       [(1, Node "pCube1" [] (Transform [2; 3]));
        (2, Node "pCubeShape1" [2; 11; 10; 3] (Shape 1 false (Mesh 3)));
        (3, Node "pCubeShape1Orig" [3] (Shape 1 true (Mesh 3)));
        (4, Node "pCube2" [] (Transform [5]));
        (5, Node "pCubeShape2" [5; 11] (Shape 4 false (Mesh 3)));
        (6, Node "pCube3" [] (Transform [7; 8]));
        (7, Node "pCubeShape3Orig" [7] (Shape 6 true (Mesh 3)));
        (8, Node "pCubeShape3Orig1" [8] (Shape 6 true (Mesh 3)));
        (10, Node "skinCluster1" [10] (SkinCluster demo_skin));
        (11, Node "skinCluster2" [11] (SkinCluster upstream_skin));
        (20, Node "groupId1" [20] OtherNode);
        (21, Node "groupId2" [21] OtherNode);
        (30, Node "joint1" [30] OtherNode);
        (31, Node "joint2" [31] OtherNode)])
    [((20, A_other "groupId"), (10, A_input0_groupId));
     ((20, A_other "groupId"), (2, A_other "instObjGroups"));
     ((21, A_other "groupId"), (11, A_input0_groupId));
     ((21, A_other "groupId"), (3, A_other "instObjGroups"));
     ((30, A_other "worldMatrix"), (10, A_matrix 0));
     ((31, A_other "worldMatrix"), (10, A_matrix 1));
     ((30, A_other "worldInverseMatrix"), (10, A_bindPreMatrix 0))]
    [1; 4] [] [].

Definition demo_weights : list Q := [1#2; 1#2; 0;  0; 0; 1;  1; 0; 0]%Q.

(** A scene whose selection holds one object only. *)
Definition lone_selection : scene :=
  Scene (nodes demo_scene) (conns demo_scene) [1] [] [].

(** The same scene when [skinCluster1] has a bind value for its first
    two influences only. *)
Definition short_skin : skin_data :=
  SkinData 0
    [Some offset_matrix; Some identity_matrix]
    [Some identity_matrix; Some offset_matrix; Some identity_matrix]
    (weightList demo_skin) 3.

Definition short_scene : scene :=
  Scene (<[10 := Node "skinCluster1" [10] (SkinCluster short_skin)]> (nodes demo_scene))
    (conns demo_scene) [1; 4] [] [].

(** The same scene when [skinCluster1] has no bindPreMatrix element at
    index 1 and its bindPreMatrix element at index 2 is connected. *)
Definition gapped_skin : skin_data :=
  SkinData 0
    [Some identity_matrix; None; Some offset_matrix]
    [Some identity_matrix; Some offset_matrix; Some identity_matrix]
    (weightList demo_skin) 3.

Definition gapped_scene : scene :=
  Scene (<[10 := Node "skinCluster1" [10] (SkinCluster gapped_skin)]> (nodes demo_scene))
    (conns demo_scene
       ++ [((31, A_other "worldInverseMatrix"), (10, A_bindPreMatrix 2))])
    [1; 4] [] [].

(** The same scene when nothing feeds [skinCluster2.input[0].groupId]. *)
Definition ungrouped_scene : scene :=
  Scene (nodes demo_scene)
    (filter (λ c : plug * plug, c.2 ≠ (11, A_input0_groupId)) (conns demo_scene))
    [1; 4] [] [].

(** The example scene when [pCube3] has one child shape only, an
    intermediate one. *)
Definition lone_orig_scene : scene :=
  Scene (<[6 := Node "pCube3" [] (Transform [7])]> (nodes demo_scene))
    (conns demo_scene) [1; 4] [] [].

(** The example scene when the target's mesh has two vertices only. *)
Definition smaller_target_scene : scene :=
  Scene (<[5 := Node "pCubeShape2" [5; 11] (Shape 4 false (Mesh 2))]>
           (nodes demo_scene))
    (conns demo_scene) [1; 4] [] [].

(** The example scene when the target's shape is a NURBS surface. *)
Definition nurbs_target_scene : scene :=
  Scene (<[5 := Node "nurbsPlaneShape1" [5] (Shape 4 false NurbsSurface)]>
           (nodes demo_scene))
    (conns demo_scene) [1; 4] [] [].

(** The example scene when the skinned shape is a NURBS surface. *)
Definition nurbs_source_scene : scene :=
  Scene (<[2 := Node "nurbsPlaneShape1" [2; 11; 10; 3] (Shape 1 false NurbsSurface)]>
           (nodes demo_scene))
    (conns demo_scene) [1; 4] [] [].

(** The example scene when [skinCluster1] has four influence indices
    and no element at index 2 of either array. *)
Definition sparse_skin : skin_data :=
  SkinData 0
    [Some offset_matrix; Some identity_matrix; None; Some offset_matrix]
    [Some identity_matrix; Some offset_matrix; None; Some identity_matrix]
    (weightList demo_skin) 4.

Definition sparse_scene : scene :=
  Scene (<[10 := Node "skinCluster1" [10] (SkinCluster sparse_skin)]> (nodes demo_scene))
    (conns demo_scene) [1; 4] [] [].

(** * Properties *)

(** ** Monad laws used for symbolic execution *)

Lemma R_bind_ok {A B} (m : R A) (f : A → R B) s a :
  m s = Ok a → (m ≫= f) s = f a s.
Proof. intros H. unfold mbind, R_bind. by rewrite H. Qed.

Lemma R_bind_raise {A B} (m : R A) (f : A → R B) s e :
  m s = Raise e → (m ≫= f) s = Raise e.
Proof. intros H. unfold mbind, R_bind. by rewrite H. Qed.

Lemma R_bind_inv {A B} (m : R A) (f : A → R B) s b :
  (m ≫= f) s = Ok b → ∃ a, m s = Ok a ∧ f a s = Ok b.
Proof. unfold mbind, R_bind. destruct (m s); [eauto | done]. Qed.

Lemma M_bind_ok {A B} (m : M A) (f : A → M B) s a s' :
  m s = (Ok a, s') → (m ≫= f) s = f a s'.
Proof. intros H. unfold mbind, M_bind. by rewrite H. Qed.

Lemma M_bind_raise {A B} (m : M A) (f : A → M B) s e s' :
  m s = (Raise e, s') → (m ≫= f) s = (Raise e, s').
Proof. intros H. unfold mbind, M_bind. by rewrite H. Qed.

Lemma M_bind_inv {A B} (m : M A) (f : A → M B) s b s2 :
  (m ≫= f) s = (Ok b, s2) → ∃ a s1, m s = (Ok a, s1) ∧ f a s1 = (Ok b, s2).
Proof.
  unfold mbind, M_bind. destruct (m s) as [[a|e] s1]; [eauto | done].
Qed.

Lemma liftR_bind_ok {A B} (r : R A) (f : A → M B) s a :
  r s = Ok a → (liftR r ≫= f) s = f a s.
Proof. intros H. apply M_bind_ok. unfold liftR. by rewrite H. Qed.

Lemma liftR_bind_raise {A B} (r : R A) (f : A → M B) s e :
  r s = Raise e → (liftR r ≫= f) s = (Raise e, s).
Proof. intros H. apply M_bind_raise. unfold liftR. by rewrite H. Qed.

(** [exec H] steps over the next bind, [H] being the equation of the
    computation that is bound. *)
Tactic Notation "exec" uconstr(H) :=
  first [ rewrite (liftR_bind_ok _ _ _ _ H)
        | rewrite (M_bind_ok _ _ _ _ _ H)
        | rewrite (R_bind_ok _ _ _ _ H) ].

(** ** Deform-shape resolution *)

Lemma filterR_all_intermediate s xs :
  Forall (flagged_intermediate s) xs →
  filterR (λ x, b ← intermediateObject_get x; mret (negb b)) xs s = Ok [].
Proof.
  induction 1 as [|x xs Hx _ IH]; [done|].
  cbn [filterR]. rewrite (R_bind_ok _ _ _ false).
  - by rewrite (R_bind_ok _ _ _ _ IH).
  - by rewrite (R_bind_ok _ _ _ _ Hx).
Qed.

Lemma filterR_one_real s before x after :
  Forall (flagged_intermediate s) before →
  non_intermediate s x →
  Forall (flagged_intermediate s) after →
  filterR (λ x, b ← intermediateObject_get x; mret (negb b))
    (before ++ x :: after) s = Ok [x].
Proof.
  intros Hb Hx Ha. induction Hb as [|y ys Hy _ IH]; cbn [app filterR].
  - rewrite (R_bind_ok _ _ _ true).
    + by rewrite (R_bind_ok _ _ _ _ (filterR_all_intermediate _ _ Ha)).
    + by rewrite (R_bind_ok _ _ _ _ Hx).
  - rewrite (R_bind_ok _ _ _ false).
    + by rewrite (R_bind_ok _ _ _ _ IH).
    + by rewrite (R_bind_ok _ _ _ _ Hy).
Qed.

Lemma get_deform_shape_unfold s ob t shapes :
  transform_of ob s = Ok t →
  getShapes t s = Ok shapes →
  get_deform_shape ob s =
    (if length shapes =? 1 then
       x ← indexR shapes 0; mret (Some x)
     else
       real_shapes ← filterR (λ x, b ← intermediateObject_get x; mret (negb b)) shapes;
       mret (head real_shapes)) s.
Proof.
  unfold transform_of, get_deform_shape. intros Ht Hs.
  apply R_bind_inv in Ht as (n & Hn & Ht).
  rewrite (R_bind_ok _ _ _ _ Hn), (R_bind_ok _ _ _ _ Ht).
  by rewrite (R_bind_ok _ _ _ _ Hs).
Qed.

(** C4. Whenever the object's transform has exactly one non-intermediate
    child shape (every other child being flagged intermediate),
    [get_deform_shape] returns that shape; whenever the transform has
    several child shapes and all of them are flagged intermediate, it
    returns [None]. *)
Theorem get_deform_shape_resolves s ob t shapes :
  transform_of ob s = Ok t →
  getShapes t s = Ok shapes →
  (∀ before x after,
      shapes = before ++ x :: after →
      Forall (flagged_intermediate s) before →
      non_intermediate s x →
      Forall (flagged_intermediate s) after →
      get_deform_shape ob s = Ok (Some x))
  ∧ (1 < length shapes →
     Forall (flagged_intermediate s) shapes →
     get_deform_shape ob s = Ok None).
Proof.
  intros Ht Hs. rewrite (get_deform_shape_unfold _ _ _ _ Ht Hs). split.
  - intros before x after -> Hb Hx Ha.
    destruct (length (before ++ x :: after) =? 1) eqn:Hlen.
    + apply Nat.eqb_eq in Hlen. rewrite length_app in Hlen. cbn in Hlen.
      destruct before; [|cbn in Hlen; lia]. by destruct after.
    + by rewrite (R_bind_ok _ _ _ _ (filterR_one_real _ _ _ _ Hb Hx Ha)).
  - intros Hlen Hall.
    destruct (length shapes =? 1) eqn:E; [apply Nat.eqb_eq in E; lia|].
    by rewrite (R_bind_ok _ _ _ _ (filterR_all_intermediate _ _ Hall)).
Qed.

(** ** Logging and the entry point *)

(** The name [om] is looked up in the module's globals and is not there. *)
Lemma load_global_om s : load_global "om" s = (Raise (NameError "om"), s).
Proof. reflexivity. Qed.

Lemma log_unbound_name msg warn error s :
  warn && error = false →
  log msg warn error s = (Raise (NameError "om"), s).
Proof. intros H. unfold log. rewrite H. reflexivity. Qed.

(** C9. Every call of [log] with both the warning and the error flag
    set raises ValueError; the scene is as before, displayed messages
    included: the rejection comes before the lookup of a display
    function, so no message has been logged. *)
Theorem log_rejects_warn_and_error msg warn error s :
  warn = true → error = true →
  log msg warn error s
  = (Raise (ValueError "Please specify only one of warn / error."), s)
  ∧ displayed (log msg warn error s).2 = displayed s.
Proof. intros -> ->. split; reflexivity. Qed.

Lemma silent_ret {A} (a : A) : silent (mret a).
Proof. done. Qed.

Lemma silent_raise {A} e : silent (@raise A e).
Proof. done. Qed.

Lemma silent_liftR {A} (r : R A) : silent (liftR r).
Proof. done. Qed.

Lemma silent_bind {A B} (m : M A) (f : A → M B) :
  silent m → (∀ a, silent (f a)) → silent (m ≫= f).
Proof.
  intros Hm Hf s. unfold mbind, M_bind. specialize (Hm s).
  destruct (m s) as [[a|e] s1]; cbn in *; [|done].
  by rewrite Hf.
Qed.

Lemma silent_forM_ {A} (l : list A) (f : A → M unit) :
  (∀ x, silent (f x)) → silent (forM_ l f).
Proof.
  intros Hf. induction l as [|x l IH]; cbn [forM_]; [apply silent_ret|].
  apply silent_bind; auto.
Qed.

Lemma silent_weightDistribution_set skin v : silent (weightDistribution_set skin v).
Proof.
  intros s. unfold weightDistribution_set.
  destruct (nodes s !! skin) as [[? ? []]|]; done.
Qed.

Lemma silent_select_clear : silent select_clear.
Proof. done. Qed.

Lemma silent_deformer target name : silent (deformer_skinCluster target name).
Proof. intros s. unfold deformer_skinCluster. by destruct (nodes s !! target). Qed.

Lemma silent_element_set p v : silent (element_set p v).
Proof.
  intros s. unfold element_set.
  destruct (nodes s !! p.1) as [[? ? [| | d |]]|]; try done.
  by destruct (set_element p.2 v d).
Qed.

Lemma silent_connect src dst : silent (connect src dst).
Proof. done. Qed.

Lemma silent_setWeights fn path cs idxs ws : silent (setWeights fn path cs idxs ws).
Proof.
  intros s. unfold setWeights.
  destruct (nodes s !! fn) as [[? ? []]|]; try done.
  by destruct (getDagPath path s).
Qed.

Lemma silent_scan_outputs ob shape skin outps :
  silent (scan_outputs ob shape skin outps).
Proof.
  induction outps as [|outp rest IH]; cbn [scan_outputs]; [apply silent_ret|].
  case_match; [|done].
  apply silent_bind; [apply silent_weightDistribution_set|intros; apply silent_ret].
Qed.

Lemma silent_scan_skins ob shape skins : silent (scan_skins ob shape skins).
Proof.
  induction skins as [|skin rest IH]; cbn [scan_skins]; [apply silent_ret|].
  repeat (apply silent_bind; [first [apply silent_liftR | apply silent_scan_outputs]|intros]).
  case_match; [apply silent_ret | done].
Qed.

Lemma silent_get_skin_cluster ob : silent (get_skin_cluster ob).
Proof.
  unfold get_skin_cluster. apply silent_bind; [apply silent_liftR|].
  intros [shape|]; [|apply silent_ret].
  repeat (apply silent_bind; [apply silent_liftR|intros]).
  case_match; [apply silent_scan_skins | apply silent_ret].
Qed.

Create HintDb silent.
#[local] Hint Resolve silent_ret silent_raise silent_liftR silent_select_clear
  silent_deformer silent_setWeights silent_element_set silent_connect
  silent_get_skin_cluster : silent.

Lemma silent_move_skin source target : silent (move_skin source target).
Proof.
  unfold move_skin.
  repeat first
    [ solve [auto with silent]
    | apply silent_forM_; intros [[? ?] ?]
    | apply silent_bind; [|intros]
    | match goal with |- silent (let '(_, _) := ?p in _) => destruct p end
    | match goal with
      | |- silent (match ?o with Some _ => _ | None => _ end) => destruct o
      end ].
Qed.

(** C6. [log] reads the global name [om], which the module never binds:
    unless both flags are set, every call raises NameError and leaves
    the scene, displayed messages included, as it was.  Hence a run of
    the entry point never displays anything, neither the success line
    nor the selection error. *)
Theorem log_raises_NameError :
  (∀ msg warn error s,
      warn && error = false →
      log msg warn error s = (Raise (NameError "om"), s))
  ∧ (∀ s, displayed (main s).2 = displayed s).
Proof.
  split; [apply log_unbound_name|].
  intros s. unfold main. rewrite (liftR_bind_ok _ _ _ (selection s)); [|done].
  case_match; [|by rewrite log_unbound_name].
  pose proof (silent_move_skin) as Hms.
  unfold mbind, M_bind, liftR.
  destruct (indexR (selection s) 0 s) as [a|]; [|done].
  destruct (indexR (selection s) 1 s) as [b|]; [|done].
  specialize (Hms a b s). destruct (move_skin a b s) as [[[]|e] s1]; [|done].
  by rewrite log_unbound_name.
Qed.

Lemma main_wrong_selection s :
  length (selection s) ≠ 2 → main s = (Raise (NameError "om"), s).
Proof.
  intros H. unfold main. rewrite (liftR_bind_ok _ _ _ (selection s)); [|done].
  apply Nat.eqb_neq in H. rewrite H. by rewrite log_unbound_name.
Qed.

(** C5 (what the code does). With a selection of any size other than
    two the entry point mutates nothing, but it does not log the error
    either: the call [log(..., error=True)] dies with NameError on the
    unbound name [om] before a display function is reached. *)
Theorem main_selection_error_not_logged s :
  length (selection s) ≠ 2 →
  main s = (Raise (NameError "om"), s)
  ∧ displayed (main s).2 = displayed s.
Proof. intros H. by rewrite (main_wrong_selection _ H). Qed.

(** ** Locating the effective skinCluster *)

Lemma scan_outputs_eq ob shape skin outps s :
  scan_outputs ob shape skin outps s =
    if reaches_any ob shape outps
    then (weightDistribution_set skin 1;; mret (Some skin)) s
    else (Ok None, s).
Proof.
  induction outps as [|outp rest IH]; [done|].
  cbn [scan_outputs reaches_any existsb].
  destruct (bool_decide (outp.1 = shape) || bool_decide (outp.1 = ob)); [done|].
  apply IH.
Qed.

Lemma weightDistribution_set_skin s skin v nm hist d :
  nodes s !! skin = Some (Node nm hist (SkinCluster d)) →
  weightDistribution_set skin v s = (Ok tt, force_distribution skin v s).
Proof. intros H. unfold weightDistribution_set, force_distribution. by rewrite H. Qed.

Lemma weightDistribution_set_inv s skin v s' :
  weightDistribution_set skin v s = (Ok tt, s') →
  ∃ nm hist d, nodes s !! skin = Some (Node nm hist (SkinCluster d))
               ∧ s' = force_distribution skin v s.
Proof.
  unfold weightDistribution_set, force_distribution.
  destruct (nodes s !! skin) as [[nm hist [| |d|]]|]; try done.
  intros [= <-]. eauto.
Qed.

Lemma scan_outputs_inv ob shape skin outps s r s' :
  scan_outputs ob shape skin outps s = (Ok r, s') →
  (r = None ∧ s' = s ∧ reaches_any ob shape outps = false)
  ∨ (r = Some skin ∧ weightDistribution_set skin 1 s = (Ok tt, s')
     ∧ reaches_any ob shape outps = true).
Proof.
  rewrite scan_outputs_eq. destruct (reaches_any ob shape outps).
  - intros H. apply M_bind_inv in H as ([] & s1 & H1 & [= <- <-]). by right.
  - intros [= <- <-]. by left.
Qed.

Lemma scan_skins_step ob shape skin rest s g :
  grouping_plug s skin = Some g →
  scan_skins ob shape (skin :: rest) s =
    (r ← scan_outputs ob shape skin (conn_outputs s g);
     match r with
     | Some found => mret (Some found)
     | None => scan_skins ob shape rest
     end) s.
Proof.
  unfold grouping_plug. intros Hg. cbn [scan_skins].
  rewrite (liftR_bind_ok _ _ _ (conn_inputs s (skin, A_input0_groupId))); [|done].
  rewrite (liftR_bind_ok _ _ _ g).
  - by rewrite (liftR_bind_ok _ _ _ (conn_outputs s g)).
  - unfold indexR. destruct (conn_inputs s (skin, A_input0_groupId)); by simplify_eq/=.
Qed.

Lemma scan_skins_skip ob shape pre rest s :
  Forall (not_reaching s ob shape) pre →
  scan_skins ob shape (pre ++ rest) s = scan_skins ob shape rest s.
Proof.
  induction 1 as [|c pre (g & Hg & Hr) _ IH]; [done|].
  cbn [app]. rewrite (scan_skins_step _ _ _ _ _ _ Hg).
  unfold mbind, M_bind. rewrite scan_outputs_eq.
  unfold reaches in Hr. by rewrite Hr.
Qed.

Lemma scan_skins_found ob shape k rest s g nm hist d :
  grouping_plug s k = Some g →
  reaches s ob shape g = true →
  nodes s !! k = Some (Node nm hist (SkinCluster d)) →
  scan_skins ob shape (k :: rest) s = (Ok (Some k), force_distribution k 1 s).
Proof.
  intros Hg Hr Hk. rewrite (scan_skins_step _ _ _ _ _ _ Hg).
  unfold mbind at 1. unfold M_bind. rewrite scan_outputs_eq.
  unfold reaches in Hr. rewrite Hr.
  by rewrite (M_bind_ok _ _ _ _ _ (weightDistribution_set_skin _ _ _ _ _ _ Hk)).
Qed.

Lemma scan_skins_inv ob shape skins s k s' :
  scan_skins ob shape skins s = (Ok (Some k), s') →
  k ∈ skins ∧ weightDistribution_set k 1 s = (Ok tt, s').
Proof.
  induction skins as [|skin rest IH]; [done|].
  cbn [scan_skins]. intros H.
  apply M_bind_inv in H as (ins & s1 & H1 & H). injection H1 as <- <-.
  apply M_bind_inv in H as (g & s1 & H1 & H).
  unfold liftR in H1. injection H1 as H1 <-.
  apply M_bind_inv in H as (outps & s1 & H2 & H). injection H2 as <- <-.
  apply M_bind_inv in H as (r & s1 & H2 & H).
  apply scan_outputs_inv in H2 as [(-> & -> & _)|(-> & Hset & _)].
  - apply IH in H as [? ?]. split; [by right | done].
  - injection H as <- <-. split; [by left | done].
Qed.

Lemma get_skin_cluster_unfold s ob shape hist :
  get_deform_shape ob s = Ok (Some shape) →
  listHistory shape s = Ok hist →
  get_skin_cluster ob s = scan_skins ob shape (candidates s hist) s.
Proof.
  intros Hs Hh. unfold get_skin_cluster.
  rewrite (liftR_bind_ok _ _ _ _ Hs), (liftR_bind_ok _ _ _ _ Hh).
  rewrite (liftR_bind_ok _ _ _ (candidates s hist)); [|done].
  destruct (candidates s hist); done.
Qed.

Lemma candidates_skin s hist k :
  k ∈ candidates s hist →
  ∃ nm h d, nodes s !! k = Some (Node nm h (SkinCluster d)).
Proof.
  unfold candidates. rewrite list_elem_of_filter. intros [H _].
  unfold is_skinCluster in H.
  destruct (nodes s !! k) as [[nm h [| |d|]]|]; try done. eauto.
Qed.

(** C2. Let the object resolve to a deform shape whose history lists
    the candidate skinClusters [candidates s hist].  If some candidate's
    grouping plug has an output on the deform shape or on the object,
    and every candidate listed before it has a grouping plug none of
    whose outputs does, [get_skin_cluster] returns that candidate.  If
    no candidate's grouping plug has such an output, it returns [None]
    and leaves the scene as it was. *)
Theorem get_skin_cluster_first_effective s ob shape hist :
  get_deform_shape ob s = Ok (Some shape) →
  listHistory shape s = Ok hist →
  (∀ pre k post g,
      candidates s hist = pre ++ k :: post →
      Forall (not_reaching s ob shape) pre →
      grouping_plug s k = Some g →
      reaches s ob shape g = true →
      get_skin_cluster ob s = (Ok (Some k), force_distribution k 1 s))
  ∧ (Forall (not_reaching s ob shape) (candidates s hist) →
     get_skin_cluster ob s = (Ok None, s)).
Proof.
  intros Hs Hh. rewrite (get_skin_cluster_unfold _ _ _ _ Hs Hh). split.
  - intros pre k post g Hc Hpre Hg Hr.
    destruct (candidates_skin s hist k) as (nm & h & d & Hk).
    { rewrite Hc. apply elem_of_app. right. by left. }
    rewrite Hc, (scan_skins_skip _ _ _ _ _ Hpre).
    by rewrite (scan_skins_found _ _ _ _ _ _ _ _ _ Hg Hr Hk).
  - intros Hall. rewrite <- (app_nil_r (candidates s hist)).
    by rewrite (scan_skins_skip _ _ _ _ _ Hall).
Qed.

Lemma get_skin_cluster_inv s ob k s' :
  get_skin_cluster ob s = (Ok (Some k), s') →
  ∃ nm hist d, nodes s !! k = Some (Node nm hist (SkinCluster d))
               ∧ s' = force_distribution k 1 s.
Proof.
  unfold get_skin_cluster. intros H.
  apply M_bind_inv in H as ([shape|] & s1 & H1 & H); [|done].
  injection H1 as _ <-.
  apply M_bind_inv in H as (hist & s1 & H1 & H). injection H1 as _ <-.
  apply M_bind_inv in H as (skins & s1 & H1 & H). injection H1 as _ <-.
  destruct (0 <? length skins); [|done].
  apply scan_skins_inv in H as [_ H].
  by apply weightDistribution_set_inv.
Qed.

Lemma get_skin_cluster_none_inv s ob s' :
  get_skin_cluster ob s = (Ok None, s') → s' = s.
Proof.
  unfold get_skin_cluster. intros H.
  apply M_bind_inv in H as ([shape|] & s1 & H1 & H); injection H1 as _ <-;
    [|by injection H].
  apply M_bind_inv in H as (hist & s1 & H1 & H). injection H1 as _ <-.
  apply M_bind_inv in H as (skins & s1 & H1 & H). injection H1 as _ <-.
  destruct (0 <? length skins); [|by injection H].
  clear -H. induction skins as [|skin rest IH]; [by injection H|].
  cbn [scan_skins] in H.
  apply M_bind_inv in H as (ins & s1 & H1 & H). injection H1 as _ <-.
  apply M_bind_inv in H as (g & s1 & H1 & H).
  unfold liftR in H1. injection H1 as _ <-.
  apply M_bind_inv in H as (outps & s1 & H2 & H). injection H2 as _ <-.
  apply M_bind_inv in H as (r & s1 & H2 & H).
  apply scan_outputs_inv in H2 as [(-> & -> & _)|(-> & _ & _)]; [auto|done].
Qed.

(** C8. When [get_skin_cluster] returns a skinCluster, the scene it
    leaves differs from the one it started in only by that skinCluster's
    weightDistribution, now 1 (neighbors): the node keeps its name, its
    history and every other attribute, all other nodes, the connections
    and the selection are unchanged, and the journal has grown by this
    one write. *)
Theorem get_skin_cluster_forces_neighbors s ob k s' :
  get_skin_cluster ob s = (Ok (Some k), s') →
  ∃ nm hist d,
    nodes s !! k = Some (Node nm hist (SkinCluster d))
    ∧ nodes s' =
        <[k := Node nm hist
                 (SkinCluster (SkinData 1 (bindPreMatrix d) (matrix d)
                                 (weightList d) (influenceCount d)))]> (nodes s)
    ∧ conns s' = conns s
    ∧ selection s' = selection s
    ∧ displayed s' = displayed s
    ∧ journal s' = journal s ++ [EvSetWeightDistribution k 1].
Proof.
  intros H. apply get_skin_cluster_inv in H as (nm & hist & d & Hk & ->).
  exists nm, hist, d. unfold force_distribution. by rewrite Hk.
Qed.

(** ** Failure on an unresolved source *)

Lemma get_dag_path_raise s h e :
  get_dag_path h s = Raise e → e = RuntimeError ∨ e = TypeError.
Proof.
  unfold get_dag_path, getSelectionListByName, getDagPath, PyNode, raiseR,
    mbind, R_bind.
  destruct (nodes s !! h) as [[nm hist []]|] eqn:E; cbn; rewrite ?E; cbn;
    intros ?; simplify_eq; auto.
Qed.

Lemma get_skin_cluster_shape s ob r s' :
  get_skin_cluster ob s = (Ok r, s') → ∃ o, get_deform_shape ob s = Ok o.
Proof.
  unfold get_skin_cluster. intros H.
  apply M_bind_inv in H as (o & s1 & H1 & _).
  unfold liftR in H1. injection H1 as H1 _. eauto.
Qed.

Lemma move_skin_no_shape s source target :
  get_deform_shape source s = Ok None →
  move_skin source target s = (Raise AttributeError, s).
Proof.
  intros H. unfold move_skin. by rewrite (liftR_bind_ok _ _ _ _ H).
Qed.

Lemma move_skin_no_skin s source target shape :
  get_deform_shape source s = Ok (Some shape) →
  get_skin_cluster source s = (Ok None, s) →
  ∃ e, (e = RuntimeError ∨ e = TypeError)
       ∧ move_skin source target s = (Raise e, s).
Proof.
  intros Hs Hk. unfold move_skin.
  rewrite (liftR_bind_ok _ _ _ _ Hs).
  rewrite (liftR_bind_ok _ _ _ shape); [|done].
  destruct (get_dag_path shape s) as [dp|e] eqn:Hdp.
  - rewrite (liftR_bind_ok _ _ _ _ Hdp), (M_bind_ok _ _ _ _ _ Hk).
    exists TypeError. split; [by right|]. by apply liftR_bind_raise.
  - exists e. split; [by eapply get_dag_path_raise|].
    by apply liftR_bind_raise.
Qed.

(** C10. If the source's deform shape resolves to [None], or no
    effective skinCluster is found on the source, [move_skin] raises
    while still reading the source: AttributeError on the missing shape,
    or the host's rejection of the missing skinCluster (of the shape's
    path, if that is what fails first).  The scene it leaves is the scene
    it was given: the selection is not cleared, no deformer is created,
    nothing is written. *)
Theorem move_skin_unresolved_source s source target :
  get_deform_shape source s = Ok None ∨ (get_skin_cluster source s).1 = Ok None →
  ∃ e, (e = AttributeError ∨ e = RuntimeError ∨ e = TypeError)
       ∧ move_skin source target s = (Raise e, s).
Proof.
  intros [H|H].
  - exists AttributeError. split; [by left|]. by apply move_skin_no_shape.
  - destruct (get_skin_cluster source s) as [r s'] eqn:Hk. cbn in H. subst r.
    pose proof (get_skin_cluster_none_inv _ _ _ Hk) as ->.
    destruct (get_skin_cluster_shape _ _ _ _ Hk) as ([shape|] & Hs).
    + destruct (move_skin_no_skin _ _ target _ Hs Hk) as (e & He & Hm).
      exists e. split; [by right|done].
    + exists AttributeError. split; [by left|]. by apply move_skin_no_shape.
Qed.

(** ** Queries survive changes confined to skinClusters, histories and new nodes *)

Lemma mono_ret {A} (a : A) : mono (mret a).
Proof. by intros s s' b _ H. Qed.

Lemma mono_bind {A B} (m : R A) (f : A → R B) :
  mono m → (∀ a, mono (f a)) → mono (m ≫= f).
Proof.
  intros Hm Hf s s' b Hle H. apply R_bind_inv in H as (a & Ha & H).
  rewrite (R_bind_ok _ _ _ _ (Hm _ _ _ Hle Ha)). by eapply Hf.
Qed.

Lemma mono_PyNode_bind {A} ob (f : node → R A) :
  (∀ n n' s s' a, node_sim n n' → dag_le s s' → f n s = Ok a → f n' s' = Ok a) →
  mono (PyNode ob ≫= f).
Proof.
  intros Hf s s' a Hle H. apply R_bind_inv in H as (n & Hn & H).
  unfold PyNode in Hn. destruct (nodes s !! ob) as [n0|] eqn:E; [|done].
  injection Hn as ->. destruct (Hle _ _ E) as (n' & E' & Hsim).
  rewrite (R_bind_ok _ _ _ n'); [by eapply Hf|].
  unfold PyNode. by rewrite E'.
Qed.

Lemma mono_getParent ob : mono (getParent ob).
Proof.
  apply mono_PyNode_bind. intros n n' s s' a [->|[Hn _]] _.
  - by destruct (kind n).
  - unfold is_skin_node in Hn. by destruct (kind n).
Qed.

Lemma mono_getShapes ob : mono (getShapes ob).
Proof.
  apply mono_PyNode_bind. intros n n' s s' a [->|[Hn _]] _.
  - by destruct (kind n).
  - unfold is_skin_node in Hn. by destruct (kind n).
Qed.

Lemma mono_intermediateObject_get x : mono (intermediateObject_get x).
Proof.
  apply mono_PyNode_bind. intros n n' s s' a [->|[Hn _]] _.
  - by destruct (kind n).
  - unfold is_skin_node in Hn. by destruct (kind n).
Qed.

Lemma mono_indexR {A} (l : list A) i : mono (indexR l i).
Proof. intros s s' a _. unfold indexR. by destruct (l !! i). Qed.

Lemma mono_filterR {A} (f : A → R bool) l :
  (∀ x, mono (f x)) → mono (filterR f l).
Proof.
  intros Hf. induction l as [|x l IH]; cbn [filterR]; [apply mono_ret|].
  apply mono_bind; [done|]. intros b.
  apply mono_bind; [done|]. intros ys. apply mono_ret.
Qed.

Lemma is_geometry_type_sim n n' :
  node_sim n n' → is_geometry_type n' = is_geometry_type n.
Proof.
  unfold is_geometry_type. intros [->|[H H']]; [done|].
  unfold is_skin_node in *. destruct (kind n), (kind n'); done.
Qed.

Lemma mono_get_deform_shape ob : mono (get_deform_shape ob).
Proof.
  unfold get_deform_shape. apply mono_PyNode_bind.
  intros n n' s s' a Hsim. rewrite (is_geometry_type_sim _ _ Hsim).
  revert s s' a. fold (mono (A:=option nat)).
  apply mono_bind.
  { destruct (is_geometry_type n); [apply mono_getParent | apply mono_ret]. }
  intros ob'. apply mono_bind; [apply mono_getShapes|]. intros shapes.
  destruct (length shapes =? 1).
  - apply mono_bind; [apply mono_indexR|]. intros x. apply mono_ret.
  - apply mono_bind; [|intros; apply mono_ret].
    apply mono_filterR. intros x.
    apply mono_bind; [apply mono_intermediateObject_get|intros; apply mono_ret].
Qed.

Lemma mesh_vertices_mono s s' h nv :
  dag_le s s' → mesh_vertices s h = Some nv → mesh_vertices s' h = Some nv.
Proof.
  unfold mesh_vertices. intros Hle H.
  destruct (nodes s !! h) as [n|] eqn:E; [|done].
  destruct (Hle _ _ E) as (n' & -> & [Hk|[Hn _]]).
  - destruct n as [? ? k], n' as [? ? k']. cbn in Hk. by subst k'.
  - unfold is_skin_node in Hn. destruct n as [? ? []]; done.
Qed.

(** ** The two loops *)

Lemma scene_eta s :
  Scene (nodes s) (conns s) (selection s) (journal s) (displayed s) = s.
Proof. by destruct s. Qed.

Lemma write_slot_step t nm hist s dt i b m :
  nodes s !! t = Some (Node nm hist (SkinCluster dt)) →
  (element_set (t, A_bindPreMatrix i) b;; element_set (t, A_matrix i) m) s
  = (Ok tt,
     Scene (<[t := Node nm hist (SkinCluster (write_slot dt (i, b, m)))]> (nodes s))
       (conns s) (selection s)
       (journal s ++ [EvSetValue (t, A_bindPreMatrix i) b; EvSetValue (t, A_matrix i) m])
       (displayed s)).
Proof.
  intros Ht. unfold mbind, M_bind, element_set. cbn [fst snd].
  rewrite Ht. cbn [set_element]. unfold log_event, set_skin, set_nodes.
  cbn [nodes conns selection journal displayed].
  rewrite lookup_insert_eq. cbn [set_element nodes conns selection journal displayed].
  rewrite insert_insert_eq. by rewrite <- app_assoc.
Qed.

Lemma values_loop t nm hist l : ∀ s dt,
  nodes s !! t = Some (Node nm hist (SkinCluster dt)) →
  forM_ l (λ '(index, bind_value, mat_value),
             element_set (t, A_bindPreMatrix index) bind_value;;
             element_set (t, A_matrix index) mat_value) s
  = (Ok tt,
     Scene (<[t := Node nm hist (SkinCluster (write_values l dt))]> (nodes s))
       (conns s) (selection s) (journal s ++ value_events t l) (displayed s)).
Proof.
  induction l as [|[[i b] m] l IH]; intros s dt Ht.
  - cbn. rewrite insert_id by done. rewrite app_nil_r. by rewrite scene_eta.
  - cbn [forM_].
    rewrite (M_bind_ok _ _ _ _ _ (write_slot_step _ _ _ _ _ i b m Ht)).
    rewrite IH with (dt := write_slot dt (i, b, m)).
    + cbn. rewrite insert_insert_eq. by rewrite <- app_assoc.
    + cbn. by rewrite lookup_insert_eq.
Qed.

Lemma wire_slot_step t s i bi mi :
  (match bi with
   | Some p => connect p (t, A_bindPreMatrix i)
   | None => mret tt
   end;;
   match mi with
   | Some p => connect p (t, A_matrix i)
   | None => mret tt
   end) s
  = (Ok tt,
     Scene (nodes s) (wire_slot t (conns s) (i, bi, mi)) (selection s)
       (journal s ++ connect_event (t, A_bindPreMatrix i) bi
                  ++ connect_event (t, A_matrix i) mi)
       (displayed s)).
Proof.
  unfold mbind, M_bind, wire_slot, wire_to, connect_event.
  destruct bi as [p|], mi as [q|];
    unfold connect, log_event, mret, M_ret;
    cbn [fst snd nodes conns selection journal displayed app];
    by rewrite <- ?app_assoc, ?app_nil_r, ?scene_eta.
Qed.

Lemma connect_loop t l : ∀ s,
  forM_ l (λ '(index, bind_input, mat_input),
             match bind_input with
             | Some p => connect p (t, A_bindPreMatrix index)
             | None => mret tt
             end;;
             match mat_input with
             | Some p => connect p (t, A_matrix index)
             | None => mret tt
             end) s
  = (Ok tt,
     Scene (nodes s) (wire t l (conns s)) (selection s)
       (journal s ++ connect_events t l) (displayed s)).
Proof.
  induction l as [|[[i bi] mi] l IH]; intros s.
  - cbn. rewrite app_nil_r. by rewrite scene_eta.
  - cbn [forM_]. rewrite (M_bind_ok _ _ _ _ _ (wire_slot_step t s i bi mi)).
    rewrite IH. cbn. by rewrite <- !app_assoc.
Qed.

(** ** Facts about the host primitives *)

Lemma filter_all {A} (P : A → Prop) `{∀ x, Decision (P x)} l :
  Forall P l → filter P l = l.
Proof.
  induction 1 as [|x l Hx _ IH]; [done|]. rewrite filter_cons_True by done.
  by rewrite IH.
Qed.

Lemma filter_none {A} (P : A → Prop) `{∀ x, Decision (P x)} l :
  Forall (λ x, ¬ P x) l → filter P l = [].
Proof.
  induction 1 as [|x l Hx _ IH]; [done|]. by rewrite filter_cons_False.
Qed.

Lemma new_handle_fresh s : nodes s !! new_handle s = None.
Proof.
  apply not_elem_of_dom. unfold new_handle.
  pose proof (is_fresh (dom (nodes s) ∪ conn_handles s)). set_solver.
Qed.

Lemma new_handle_not_conn s c :
  c ∈ conns s → c.1.1 ≠ new_handle s ∧ c.2.1 ≠ new_handle s.
Proof.
  intros Hc. unfold new_handle.
  pose proof (is_fresh (dom (nodes s) ∪ conn_handles s)) as Hf.
  assert (c.1.1 ∈ conn_handles s ∧ c.2.1 ∈ conn_handles s) as [H1 H2].
  { unfold conn_handles. rewrite !elem_of_list_to_set, !list_elem_of_bind.
    split; exists c; set_solver. }
  split; intros E; apply Hf, elem_of_union; right; by rewrite <- E.
Qed.

Lemma new_handle_eq s s' :
  dom (nodes s') = dom (nodes s) → conns s' = conns s →
  new_handle s' = new_handle s.
Proof. unfold new_handle, conn_handles. by intros -> ->. Qed.

Lemma element_input_eq p s : element_input p s = Ok (head (conn_inputs s p)).
Proof.
  unfold element_input, isConnected, inputs, indexR, mbind, R_bind.
  destruct (conn_inputs s p) as [|x l] eqn:E.
  - by rewrite bool_decide_eq_false_2 by (intros H; by apply H).
  - rewrite bool_decide_eq_true_2 by done. by rewrite E.
Qed.

Lemma mapR_ok {A B} (f : A → R B) (g : A → B) l s :
  (∀ x, f x s = Ok (g x)) → mapR f l s = Ok (g <$> l).
Proof.
  intros Hf. induction l as [|x l IH]; [done|]. cbn [mapR].
  rewrite (R_bind_ok _ _ _ _ (Hf x)). by rewrite (R_bind_ok _ _ _ _ IH).
Qed.

Lemma get_dag_path_mesh s h nv :
  mesh_vertices s h = Some nv → get_dag_path h s = Ok h.
Proof.
  unfold mesh_vertices, get_dag_path, getSelectionListByName, getDagPath,
    PyNode, mbind, R_bind.
  destruct (nodes s !! h) as [[? ? [|? ? []| |]]|] eqn:E; try done.
  by rewrite E.
Qed.

Lemma get_mfn_mesh_ok s h nv :
  mesh_vertices s h = Some nv → get_mfn_mesh (Some h) s = Ok h.
Proof.
  intros H. unfold get_mfn_mesh, get_mobject, getSelectionListByName, MFnMesh,
    mbind, R_bind.
  assert (is_Some (nodes s !! h)) as [n Hn].
  { unfold mesh_vertices in H. destruct (nodes s !! h); [eauto|done]. }
  rewrite Hn. cbn. by rewrite H.
Qed.

Lemma get_complete_components_ok s h nv :
  mesh_vertices s h = Some nv → get_complete_components h s = Ok (seq 0 nv).
Proof.
  intros H. unfold get_complete_components, numVertices, mbind, R_bind.
  by rewrite H.
Qed.

Lemma get_mfn_skin_ok s h nm hist d :
  nodes s !! h = Some (Node nm hist (SkinCluster d)) →
  get_mfn_skin (Some h) s = Ok h.
Proof.
  intros H. unfold get_mfn_skin, get_mobject, getSelectionListByName,
    MFnSkinCluster, is_skinCluster, mbind, R_bind.
  rewrite H. cbn. by rewrite H.
Qed.

Lemma skin_of_ok s h nm hist d :
  nodes s !! h = Some (Node nm hist (SkinCluster d)) → skin_of h s = Ok d.
Proof. intros H. unfold skin_of, PyNode, mbind, R_bind. by rewrite H. Qed.

Lemma getWeights_at_ok s fn path nm hist d comps infl :
  nodes s !! fn = Some (Node nm hist (SkinCluster d)) →
  getDagPath path s = Ok path →
  getWeights_at fn path comps infl s = Ok (weight_of d <$> cells comps infl).
Proof.
  intros Hfn Hp. unfold getWeights_at.
  rewrite (R_bind_ok _ _ _ _ (skin_of_ok _ _ _ _ _ Hfn)).
  by rewrite (R_bind_ok _ _ _ _ Hp).
Qed.

Lemma getWeights_ok s fn path nm hist d nv :
  nodes s !! fn = Some (Node nm hist (SkinCluster d)) →
  getDagPath path s = Ok path →
  getWeights fn path (seq 0 nv) s = Ok (weights_of d nv, influenceCount d).
Proof.
  intros Hfn Hp. unfold getWeights.
  rewrite (R_bind_ok _ _ _ _ (skin_of_ok _ _ _ _ _ Hfn)).
  by rewrite (R_bind_ok _ _ _ _ (getWeights_at_ok _ _ _ _ _ _ _ _ Hfn Hp)).
Qed.

Lemma getDagPath_mesh s h nv :
  mesh_vertices s h = Some nv → getDagPath h s = Ok h.
Proof.
  unfold mesh_vertices, getDagPath, PyNode, mbind, R_bind.
  by destruct (nodes s !! h) as [[? ? [|? ? []| |]]|].
Qed.

Lemma get_deform_shape_exists s ob r :
  get_deform_shape ob s = Ok r → is_Some (nodes s !! ob).
Proof.
  unfold get_deform_shape. intros H. apply R_bind_inv in H as (n & Hn & _).
  unfold PyNode in Hn. destruct (nodes s !! ob); [eauto|done].
Qed.

Lemma write_values_fields l : ∀ d,
  weightDistribution (write_values l d) = weightDistribution d
  ∧ weightList (write_values l d) = weightList d
  ∧ influenceCount (write_values l d) = influenceCount d.
Proof.
  induction l as [|x l IH]; intros d; [done|].
  unfold write_values in *. cbn [foldl].
  destruct (IH (write_slot d x)) as (-> & -> & ->). done.
Qed.

Lemma dag_le_nodes s s' ns :
  (∀ h n, nodes s !! h = Some n → ∃ n', ns !! h = Some n' ∧ node_sim n n') →
  nodes s' = ns → dag_le s s'.
Proof. intros H <-. exact H. Qed.

(** ** The binding of a new deformer *)

Lemma grouping_handle_fresh s : nodes s !! grouping_handle s = None.
Proof.
  apply not_elem_of_dom. unfold grouping_handle.
  pose proof (is_fresh (dom (nodes s) ∪ conn_handles s ∪ {[new_handle s]})).
  set_solver.
Qed.

Lemma grouping_handle_ne s : grouping_handle s ≠ new_handle s.
Proof.
  unfold grouping_handle.
  pose proof (is_fresh (dom (nodes s) ∪ conn_handles s ∪ {[new_handle s]})).
  set_solver.
Qed.

Lemma grouping_handle_eq s s' :
  dom (nodes s') = dom (nodes s) → conns s' = conns s →
  grouping_handle s' = grouping_handle s.
Proof. unfold grouping_handle, new_handle, conn_handles. by intros -> ->. Qed.

Lemma deformed_shape_shape s ob x :
  deformed_shape s ob = Some x →
  ∃ nm hist p b g, nodes s !! x = Some (Node nm hist (Shape p b g)).
Proof.
  unfold deformed_shape.
  destruct (nodes s !! ob) as [[nm hist [shapes|p b g|d|]]|] eqn:E; try done.
  - intros H. apply head_Some_elem_of in H.
    apply list_elem_of_filter in H as [H _]. unfold is_real_shape in H.
    destruct (nodes s !! x) as [[nm' hist' [|p [] g| |]]|]; try done. eauto 6.
  - intros [= <-]. eauto 6.
Qed.

Lemma is_real_shape_set_skin s s' sk nm hist d n1 x :
  nodes s !! sk = Some (Node nm hist (SkinCluster d)) →
  is_skin_node n1 →
  nodes s' = <[sk := n1]> (nodes s) →
  is_real_shape s' x = is_real_shape s x.
Proof.
  intros Hsk H1 E. unfold is_real_shape. rewrite E.
  destruct (decide (x = sk)) as [->|Hne].
  - rewrite lookup_insert_eq, Hsk. unfold is_skin_node in H1.
    by destruct n1 as [? ? []].
  - by rewrite lookup_insert_ne.
Qed.

(** What a deformer is bound to does not depend on the data of a
    skinCluster. *)
Lemma deformed_shape_set_skin s s' sk nm hist d n1 ob :
  nodes s !! sk = Some (Node nm hist (SkinCluster d)) →
  is_skin_node n1 →
  nodes s' = <[sk := n1]> (nodes s) →
  deformed_shape s' ob = deformed_shape s ob.
Proof.
  intros Hsk H1 E. unfold deformed_shape. rewrite E.
  destruct (decide (ob = sk)) as [->|Hne].
  - rewrite lookup_insert_eq, Hsk. unfold is_skin_node in H1.
    by destruct n1 as [? ? []].
  - rewrite lookup_insert_ne by done.
    destruct (nodes s !! ob) as [[? ? [shapes| | |]]|]; try done.
    f_equal. apply list_filter_iff. intros x.
    by rewrite (is_real_shape_set_skin _ _ _ _ _ _ _ x Hsk H1 E).
Qed.

Lemma bind_nodes_sim h g name ox ns k n :
  ns !! k = Some n → k ≠ g →
  ∃ n', bind_nodes h g name ox ns !! k = Some n'
        ∧ kind n' = kind n ∧ (ox ≠ Some k → n' = n).
Proof.
  intros Hk Hg. destruct ox as [x|]; cbn; [|by exists n].
  destruct (decide (k = x)) as [->|Hne].
  - rewrite lookup_alter_eq, lookup_insert_ne, Hk by done. cbn.
    exists (thread_history h n). by split_and!.
  - rewrite lookup_alter_ne, lookup_insert_ne, Hk by done. by exists n.
Qed.

Lemma bind_nodes_skin h g name ox ns k n :
  ns !! k = Some n → k ≠ g → ox ≠ Some k →
  bind_nodes h g name ox ns !! k = Some n.
Proof.
  intros Hk Hg Hx.
  destruct (bind_nodes_sim h g name ox ns k n Hk Hg) as (n' & -> & _ & E).
  by rewrite E.
Qed.

(** The connections that bind a deformer end on its [input[0].groupId]
    and on the shape, never on an array element. *)
Lemma bind_conns_filter h g ox cs p :
  p.2 ≠ A_input0_groupId → p.2 ≠ A_other "instObjGroups" →
  filter (λ c : plug * plug, c.2 = p) (bind_conns h g ox cs)
  = filter (λ c : plug * plug, c.2 = p) cs.
Proof.
  intros H1 H2. destruct ox as [x|]; cbn; [|done].
  rewrite filter_app. rewrite (filter_none _ [_; _]); [by rewrite app_nil_r|].
  repeat constructor; cbn; intros E; subst p; done.
Qed.

Lemma bind_conns_Forall h g ox cs (P : plug * plug → Prop) :
  Forall P cs →
  P ((g, A_other "groupId"), (h, A_input0_groupId)) →
  (∀ x, ox = Some x → P ((g, A_other "groupId"), (x, A_other "instObjGroups"))) →
  Forall P (bind_conns h g ox cs).
Proof.
  intros Hcs H1 H2. destruct ox as [x|]; cbn; [|done].
  apply Forall_app. split; [done|]. repeat constructor; [done|by apply H2].
Qed.

(** Overwriting a skinCluster, binding a new deformer and adding it at
    a handle that held nothing leaves the DAG as it was. *)
Lemma dag_le_transplant s sk nm hist d n1 t g name ox nt :
  nodes s !! sk = Some (Node nm hist (SkinCluster d)) →
  is_skin_node n1 →
  nodes s !! t = None →
  nodes s !! g = None →
  ∀ h n, nodes s !! h = Some n →
         ∃ n', (<[t := nt]> (bind_nodes t g name ox (<[sk := n1]> (nodes s)))) !! h
               = Some n' ∧ node_sim n n'.
Proof.
  intros Hsk H1 Ht Hg h n Hn.
  destruct (decide (h = t)) as [->|Hne]; [congruence|].
  destruct (decide (h = g)) as [->|Hneg]; [congruence|].
  rewrite lookup_insert_ne by done.
  destruct (decide (h = sk)) as [->|Hne'].
  - destruct (bind_nodes_sim t g name ox (<[sk := n1]> (nodes s)) sk n1)
      as (n' & -> & Hk & _); [apply lookup_insert_eq|done|].
    exists n'. split; [done|]. right.
    rewrite Hsk in Hn. injection Hn as <-. split; [done|].
    unfold is_skin_node in *. by rewrite Hk.
  - destruct (bind_nodes_sim t g name ox (<[sk := n1]> (nodes s)) h n)
      as (n' & -> & Hk & _); [by rewrite lookup_insert_ne|done|].
    exists n'. split; [done|]. by left.
Qed.

Lemma dag_le_overwrite_skin s sk nm hist d n1 :
  nodes s !! sk = Some (Node nm hist (SkinCluster d)) →
  is_skin_node n1 →
  ∀ h n, nodes s !! h = Some n →
         ∃ n', (<[sk := n1]> (nodes s)) !! h = Some n' ∧ node_sim n n'.
Proof.
  intros Hsk H1 h n Hn.
  destruct (decide (h = sk)) as [->|Hne'].
  - rewrite lookup_insert_eq. exists n1. split; [done|]. right.
    rewrite Hsk in Hn. injection Hn as <-. done.
  - rewrite lookup_insert_ne by done. exists n. split; [done|]. by left.
Qed.

(** ** A complete run of the transplant *)

Lemma force_distribution_skin s sk nm hist d v :
  nodes s !! sk = Some (Node nm hist (SkinCluster d)) →
  force_distribution sk v s =
    Scene (<[sk := Node nm hist (SkinCluster (SkinData v (bindPreMatrix d) (matrix d)
                                                (weightList d) (influenceCount d)))]> (nodes s))
      (conns s) (selection s) (journal s ++ [EvSetWeightDistribution sk v]) (displayed s).
Proof. intros H. unfold force_distribution. by rewrite H. Qed.

Lemma select_clear_eq s :
  select_clear s
  = (Ok tt, Scene (nodes s) (conns s) [] (journal s ++ [EvSelectClear]) (displayed s)).
Proof. done. Qed.

Lemma deformer_ok s target name :
  is_Some (nodes s !! target) →
  deformer_skinCluster target name s
  = (Ok [new_handle s],
     Scene (<[new_handle s := Node name [] (SkinCluster empty_skin)]>
              (bind_nodes (new_handle s) (grouping_handle s) name
                 (deformed_shape s target) (nodes s)))
       (bind_conns (new_handle s) (grouping_handle s) (deformed_shape s target)
          (conns s))
       (selection s) (journal s ++ [EvCreateDeformer (new_handle s)])
       (displayed s)).
Proof. intros [n Hn]. unfold deformer_skinCluster. by rewrite Hn. Qed.

Lemma setWeights_ok s fn path comps infl ws nm hist d :
  nodes s !! fn = Some (Node nm hist (SkinCluster d)) →
  getDagPath path s = Ok path →
  setWeights fn path comps infl ws s
  = (Ok tt,
     Scene (<[fn := Node nm hist
                      (SkinCluster
                         (SkinData (weightDistribution d) (bindPreMatrix d) (matrix d)
                            (write_weights (cells comps infl) ws (weightList d))
                            (influenceCount d)))]> (nodes s))
       (conns s) (selection s) (journal s ++ [EvSetWeights fn]) (displayed s)).
Proof. intros Hfn Hp. unfold setWeights. by rewrite Hfn, Hp. Qed.

Lemma PyNode_ok s h n : nodes s !! h = Some n → PyNode h s = Ok n.
Proof. intros H. unfold PyNode. by rewrite H. Qed.

Lemma conn_inputs_bound s s' h g ox p :
  conns s' = bind_conns h g ox (conns s) →
  p.2 ≠ A_input0_groupId → p.2 ≠ A_other "instObjGroups" →
  conn_inputs s' p = conn_inputs s p.
Proof.
  intros E H1 H2. unfold conn_inputs. by rewrite E, bind_conns_filter.
Qed.

Lemma move_skin_run s source target ssh sk tsh nvs nvt nm hist d :
  get_deform_shape source s = Ok (Some ssh) →
  get_skin_cluster source s = (Ok (Some sk), force_distribution sk 1 s) →
  nodes s !! sk = Some (Node nm hist (SkinCluster d)) →
  mesh_vertices s ssh = Some nvs →
  get_deform_shape target s = Ok (Some tsh) →
  mesh_vertices s tsh = Some nvt →
  move_skin source target s = (Ok tt, transplant_result s target sk nm hist d nvs nvt).
Proof.
  intros Hs Hk Hsk Hms Ht Hmt. unfold move_skin.
  exec Hs.
  rewrite (liftR_bind_ok _ _ _ ssh) by done.
  exec (get_dag_path_mesh _ _ _ Hms).
  exec Hk.
  rewrite (force_distribution_skin _ _ _ _ _ _ Hsk).
  set (d1 := SkinData 1 _ _ _ _).
  set (s1 := Scene _ _ _ _ _).
  assert (nodes s1 !! sk = Some (Node nm hist (SkinCluster d1))) as Hsk1
    by apply lookup_insert_eq.
  assert (dag_le s s1) as Hle1.
  { eapply dag_le_nodes; [|done]. by eapply dag_le_overwrite_skin. }
  exec (get_mfn_skin_ok _ _ _ _ _ Hsk1).
  exec (mono_get_deform_shape _ _ _ _ Hle1 Hs).
  pose proof (mesh_vertices_mono _ _ _ _ Hle1 Hms) as Hms1.
  exec (get_mfn_mesh_ok _ _ _ Hms1).
  exec (get_complete_components_ok _ _ _ Hms1).
  exec (getWeights_ok _ _ _ _ _ _ nvs Hsk1 (getDagPath_mesh _ _ _ Hms1)).
  cbn [influenceCount d1].
  exec (select_clear_eq s1).
  set (s2 := Scene _ _ [] _ _).
  rewrite (liftR_bind_ok _ _ _ sk) by done.
  rewrite (liftR_bind_ok _ _ _ nm)
    by (by rewrite (R_bind_ok _ _ _ _ (PyNode_ok s2 _ _ Hsk1))).
  assert (is_Some (nodes s2 !! target)) as Htgt.
  { destruct (get_deform_shape_exists _ _ _ Ht) as [n Hn].
    destruct (Hle1 _ _ Hn) as (n' & Hn' & _). by exists n'. }
  exec (deformer_ok s2 _ _ Htgt).
  assert (dom (nodes s2) = dom (nodes s)) as Edom.
  { cbn. rewrite dom_insert_L.
    apply subseteq_union_1_L, singleton_subseteq_l. by eapply elem_of_dom_2. }
  rewrite (new_handle_eq s s2 Edom eq_refl), (grouping_handle_eq s s2 Edom eq_refl).
  rewrite (deformed_shape_set_skin s s2 sk nm hist d
             (Node nm hist (SkinCluster d1)) target Hsk I eq_refl).
  set (t := new_handle s). set (g := grouping_handle s).
  set (x := deformed_shape s target).
  set (s3 := Scene (<[t := _]> _) _ _ _ _).
  rewrite (liftR_bind_ok _ _ _ t) by done.
  assert (t ≠ sk) as Htsk.
  { intros E. pose proof (new_handle_fresh s) as Hf. fold t in Hf.
    rewrite E in Hf. congruence. }
  assert (sk ≠ g) as Hgsk.
  { intros E. pose proof (grouping_handle_fresh s) as Hf. fold g in Hf.
    rewrite <- E in Hf. congruence. }
  assert (x ≠ Some sk) as Hxsk.
  { intros E. destruct (deformed_shape_shape _ _ _ E) as (? & ? & ? & ? & ? & E').
    congruence. }
  assert (nodes s3 !! sk = Some (Node nm hist (SkinCluster d1))) as Hsk3.
  { cbn. rewrite lookup_insert_ne by done. by apply bind_nodes_skin. }
  assert (bindPreMatrix_elements sk s3 = Ok (multi_elements (bindPreMatrix d))) as Eb.
  { unfold bindPreMatrix_elements. by rewrite (R_bind_ok _ _ _ _ (skin_of_ok _ _ _ _ _ Hsk3)). }
  assert (matrix_elements sk s3 = Ok (multi_elements (matrix d))) as Em.
  { unfold matrix_elements. by rewrite (R_bind_ok _ _ _ _ (skin_of_ok _ _ _ _ _ Hsk3)). }
  assert (∀ p, p.2 ≠ A_input0_groupId → p.2 ≠ A_other "instObjGroups" →
               conn_inputs s3 p = conn_inputs s p) as Hin
    by (intros p; by apply (conn_inputs_bound s s3 t g x)).
  exec Eb.
  rewrite (liftR_bind_ok _ _ _ (bind_inputs s sk d))
    by (apply mapR_ok; intros y; by rewrite element_input_eq, Hin).
  exec Eb.
  exec Em.
  rewrite (liftR_bind_ok _ _ _ (mat_inputs s sk d))
    by (apply mapR_ok; intros y; by rewrite element_input_eq, Hin).
  exec Em.
  fold (bind_values d) (mat_values d) (source_values d) (source_inputs s sk d).
  assert (nodes s3 !! t = Some (Node ("MERGED__" +:+ nm) [] (SkinCluster empty_skin)))
    as Ht3 by apply lookup_insert_eq.
  exec (values_loop _ _ _ (source_values d) _ _ Ht3).
  exec (connect_loop t (source_inputs s sk d) _).
  cbn [nodes conns selection journal displayed s3 s2 s1].
  rewrite insert_insert_eq.
  set (dt := write_values _ _).
  set (s5 := Scene _ _ _ _ _).
  assert (nodes s5 !! t = Some (Node ("MERGED__" +:+ nm) [] (SkinCluster dt))) as Ht5
    by apply lookup_insert_eq.
  assert (dag_le s s5) as Hle5.
  { eapply dag_le_nodes; [|done].
    eapply dag_le_transplant;
      [done|done|apply new_handle_fresh|apply grouping_handle_fresh]. }
  pose proof (mesh_vertices_mono _ _ _ _ Hle5 Hmt) as Hmt5.
  exec (get_mfn_skin_ok _ _ _ _ _ Ht5).
  exec (mono_get_deform_shape _ _ _ _ Hle5 Ht).
  exec (get_mfn_mesh_ok _ _ _ Hmt5).
  exec (mono_get_deform_shape _ _ _ _ Hle5 Ht).
  rewrite (liftR_bind_ok _ _ _ tsh) by done.
  exec (get_dag_path_mesh _ _ _ Hmt5).
  exec (get_complete_components_ok _ _ _ Hmt5).
  rewrite (setWeights_ok _ _ _ _ _ _ _ _ _ Ht5 (getDagPath_mesh _ _ _ Hmt5)).
  unfold transplant_result, transplanted_skin. fold t g x dt.
  cbn [nodes conns selection journal displayed s5].
  rewrite insert_insert_eq. by rewrite <- !app_assoc.
Qed.

(** ** Sparse arrays *)

Lemma multi_get_set_eq {A} i (a : A) m : multi_get (multi_set i a m) i = Some a.
Proof.
  unfold multi_get, multi_set. case_decide as Hi.
  - by rewrite list_lookup_insert_eq.
  - rewrite lookup_app_r by lia.
    rewrite lookup_app_r by (rewrite length_replicate; lia).
    rewrite length_replicate. by rewrite Nat.sub_diag.
Qed.

Lemma multi_get_set_ne {A} i j (a : A) m :
  i ≠ j → multi_get (multi_set i a m) j = multi_get m j.
Proof.
  intros Hne. unfold multi_get, multi_set. case_decide as Hi.
  - by rewrite list_lookup_insert_ne.
  - destruct (decide (j < length m)) as [Hj|Hj].
    + by rewrite lookup_app_l.
    + rewrite (lookup_ge_None_2 m j) by lia.
      rewrite lookup_app_r by lia.
      destruct (decide (j - length m < i - length m)) as [Hlt|Hge].
      * rewrite lookup_app_l by (rewrite length_replicate; lia).
        by rewrite lookup_replicate_2.
      * rewrite lookup_app_r by (rewrite length_replicate; lia).
        rewrite length_replicate.
        destruct (j - length m - (i - length m)) as [|k] eqn:E; [lia|done].
Qed.

(** ** What the value loop leaves in the new skinCluster *)

Lemma write_values_other l : ∀ d i,
  i ∉ l.*1.*1 →
  multi_get (bindPreMatrix (write_values l d)) i = multi_get (bindPreMatrix d) i
  ∧ multi_get (matrix (write_values l d)) i = multi_get (matrix d) i.
Proof.
  induction l as [|[[j b] m] l IH]; intros d i Hi; [done|].
  rewrite !fmap_cons, not_elem_of_cons in Hi. cbn in Hi. destruct Hi as [Hne Hi].
  unfold write_values in *. cbn [foldl].
  destruct (IH (write_slot d (j, b, m)) i Hi) as [-> ->].
  cbn. by rewrite !multi_get_set_ne.
Qed.

Lemma write_values_at l : ∀ d pos i b m,
  NoDup l.*1.*1 →
  l !! pos = Some (i, b, m) →
  multi_get (bindPreMatrix (write_values l d)) i = Some b
  ∧ multi_get (matrix (write_values l d)) i = Some m.
Proof.
  induction l as [|x l IH]; intros d pos i b m Hnd Hpos; [done|].
  rewrite !fmap_cons in Hnd. apply NoDup_cons in Hnd as [Hx Hnd].
  destruct pos as [|pos]; cbn in Hpos.
  - injection Hpos as ->. cbn in Hx.
    unfold write_values. cbn [foldl]. fold (write_values l (write_slot d (i, b, m))).
    destruct (write_values_other l (write_slot d (i, b, m)) i Hx) as [-> ->].
    cbn. by rewrite !multi_get_set_eq.
  - unfold write_values. cbn [foldl]. by eapply IH.
Qed.

Lemma write_values_inv l : ∀ d i v,
  multi_get (bindPreMatrix (write_values l d)) i = Some v →
  i ∈ l.*1.*1 ∨ multi_get (bindPreMatrix d) i = Some v.
Proof.
  induction l as [|[[j b] m] l IH]; intros d i v H; [by right|].
  unfold write_values in H. cbn [foldl] in H. apply IH in H as [H|H].
  - left. rewrite !fmap_cons. by right.
  - destruct (decide (j = i)) as [->|Hne].
    + left. rewrite !fmap_cons. by left.
    + right. cbn in H. by rewrite multi_get_set_ne in H.
Qed.

(** ** The index range zipped with two lists *)

Lemma zip3_seq_indices {B C} n : ∀ k (l2 : list B) (l3 : list C),
  (zip3 (seq k n) l2 l3).*1.*1 = seq k (length (zip3 (seq k n) l2 l3)).
Proof.
  induction n as [|n IH]; intros k l2 l3; [done|].
  destruct l2 as [|b l2]; [done|]. destruct l3 as [|c l3]; [done|].
  cbn. f_equal. apply IH.
Qed.

Lemma zip3_seq_NoDup {B C} n (l2 : list B) (l3 : list C) :
  NoDup (zip3 (seq 0 n) l2 l3).*1.*1.
Proof. rewrite zip3_seq_indices. apply NoDup_seq. Qed.

Lemma zip3_seq_lookup {B C} n (l2 : list B) (l3 : list C) i b c :
  i < n → l2 !! i = Some b → l3 !! i = Some c →
  zip3 (seq 0 n) l2 l3 !! i = Some (i, b, c).
Proof.
  intros Hi Hb Hc. unfold zip3.
  apply lookup_zip_with_Some. exists (i, b), c. split; [done|]. split; [|done].
  apply lookup_zip_with_Some. exists i, b. split; [done|]. split; [|done].
  by apply lookup_seq.
Qed.

Lemma zip3_seq_elem {B C} n (l2 : list B) (l3 : list C) i b c :
  (i, b, c) ∈ zip3 (seq 0 n) l2 l3 →
  i < n ∧ l2 !! i = Some b ∧ l3 !! i = Some c.
Proof.
  intros H. apply list_elem_of_lookup in H as [pos H]. unfold zip3 in H.
  apply lookup_zip_with_Some in H as ([j b'] & c' & [= <- <- <-] & H & Hc).
  apply lookup_zip_with_Some in H as (j' & b'' & [= <- <-] & Hj & Hb).
  apply lookup_seq in Hj as [-> Hlt]. done.
Qed.

(** ** What the connection loop leaves in the scene *)

Lemma wire_to_fresh dst o cs :
  Forall (λ c : plug * plug, c.2 ≠ dst) cs →
  wire_to dst o cs = cs ++ added_to dst o.
Proof.
  intros H. destruct o as [p|]; cbn; [|by rewrite app_nil_r].
  unfold force_connect. by rewrite filter_all.
Qed.

Lemma wire_fresh t l : ∀ cs,
  Forall (λ c : plug * plug, ∀ i, slot_of t i c.2 → i ∉ l.*1.*1) cs →
  NoDup l.*1.*1 →
  wire t l cs = cs ++ added_conns t l.
Proof.
  induction l as [|[[i bi] mi] l IH]; intros cs Hcs Hnd.
  - by rewrite app_nil_r.
  - rewrite !fmap_cons in Hnd. apply NoDup_cons in Hnd as [Hi Hnd]. cbn in Hi.
    unfold wire. cbn [foldl]. fold (wire t l (wire_slot t cs (i, bi, mi))).
    unfold wire_slot. cbn [fst snd].
    assert (∀ c : plug * plug, c ∈ cs → ¬ slot_of t i c.2) as Hfree.
    { intros c Hc Hs. rewrite Forall_forall in Hcs.
      apply (Hcs c Hc i Hs). rewrite !fmap_cons. by left. }
    rewrite (wire_to_fresh (t, A_bindPreMatrix i)).
    2:{ apply Forall_forall. intros c Hc E. apply (Hfree c Hc). by left. }
    rewrite (wire_to_fresh (t, A_matrix i)).
    2:{ apply Forall_app. split.
        - apply Forall_forall. intros c Hc E. apply (Hfree c Hc). by right.
        - destruct bi; repeat constructor. done. }
    rewrite IH; [|
      | done].
    + cbn. by rewrite <- !app_assoc.
    + rewrite !Forall_app. split_and!.
      * eapply Forall_impl; [exact Hcs|]. intros c Hc j Hj Hin.
        apply (Hc j Hj). rewrite !fmap_cons. by right.
      * destruct bi; repeat constructor. intros j [[= <-]|[=]]. done.
      * destruct mi; repeat constructor. intros j [[=]|[= <-]]. done.
Qed.

Lemma added_conns_inputs_other t l dst :
  (∀ i, slot_of t i dst → i ∉ l.*1.*1) →
  filter (λ c : plug * plug, c.2 = dst) (added_conns t l) = [].
Proof.
  intros H. apply filter_none, Forall_forall. intros c Hc E.
  unfold added_conns in Hc. apply list_elem_of_bind in Hc as ([[i bi] mi] & Hc & Hx).
  cbn in Hc. apply (H i).
  - apply elem_of_app in Hc as [Hc|Hc].
    + destruct bi; [|by apply elem_of_nil in Hc].
      apply list_elem_of_singleton in Hc. subst c. cbn in E. by left.
    + destruct mi; [|by apply elem_of_nil in Hc].
      apply list_elem_of_singleton in Hc. subst c. cbn in E. by right.
  - apply list_elem_of_fmap. exists (i, bi). split; [done|].
    apply list_elem_of_fmap. by exists (i, bi, mi).
Qed.

Lemma added_conns_inputs t l : ∀ pos i bi mi,
  NoDup l.*1.*1 →
  l !! pos = Some (i, bi, mi) →
  (filter (λ c : plug * plug, c.2 = (t, A_bindPreMatrix i)) (added_conns t l)).*1
    = option_list bi
  ∧ (filter (λ c : plug * plug, c.2 = (t, A_matrix i)) (added_conns t l)).*1
    = option_list mi.
Proof.
  induction l as [|x l IH]; intros pos i bi mi Hnd Hpos; [done|].
  rewrite !fmap_cons in Hnd. apply NoDup_cons in Hnd as [Hx Hnd].
  unfold added_conns. cbn [mbind list_bind]. fold (added_conns t l).
  rewrite !filter_app, !fmap_app.
  destruct pos as [|pos]; cbn in Hpos.
  - injection Hpos as ->. cbn in Hx. cbn [fst snd].
    rewrite !(added_conns_inputs_other t l), !app_nil_r.
    2,3: intros j [[= <-]|[= <-]]; done.
    destruct bi, mi; cbn; repeat case_decide; by simplify_eq.
  - destruct (IH _ _ _ _ Hnd Hpos) as [-> ->].
    assert (x.1.1 ≠ i) as Hne.
    { intros E. apply Hx. rewrite E.
      apply list_elem_of_fmap. exists (i, bi). split; [done|].
      apply list_elem_of_fmap. exists (i, bi, mi). split; [done|].
      by eapply list_elem_of_lookup_2. }
    destruct x as [[j bj] mj]. cbn in Hne. cbn [fst snd].
    rewrite !filter_none; [done|..].
    all: destruct bj, mj; repeat constructor; cbn; congruence.
Qed.

(** ** Writing and reading a weight array *)

Lemma write_weights_cons k w ks ws wl :
  write_weights (k :: ks) (w :: ws) wl = write_weights ks ws (<[k := w]> wl).
Proof. done. Qed.

Lemma write_weights_not_in ks : ∀ ws wl k,
  k ∉ ks → write_weights ks ws wl !! k = wl !! k.
Proof.
  induction ks as [|k0 ks IH]; intros ws wl k Hk; [done|].
  destruct ws as [|w0 ws]; [done|].
  apply not_elem_of_cons in Hk as [Hne Hk].
  rewrite write_weights_cons, IH by done. by rewrite lookup_insert_ne.
Qed.

Lemma write_weights_same ks (f : nat * nat → Q) : ∀ wl k,
  NoDup ks → k ∈ ks → write_weights ks (f <$> ks) wl !! k = Some (f k).
Proof.
  induction ks as [|k0 ks IH]; intros wl k Hnd Hk; [by apply elem_of_nil in Hk|].
  apply NoDup_cons in Hnd as [Hk0 Hnd]. rewrite fmap_cons, write_weights_cons.
  apply elem_of_cons in Hk as [->|Hk].
  - rewrite write_weights_not_in by done. apply lookup_insert_eq.
  - by apply IH.
Qed.

Lemma cells_elem v i comps infl :
  (v, i) ∈ cells comps infl ↔ v ∈ comps ∧ i ∈ infl.
Proof.
  unfold cells. rewrite list_elem_of_bind. split.
  - intros (v' & Hi & Hv). apply list_elem_of_fmap in Hi as (i' & [= -> ->] & Hi).
    done.
  - intros [Hv Hi]. exists v. split; [|done]. apply list_elem_of_fmap. eauto.
Qed.

Lemma cells_NoDup comps infl :
  NoDup comps → NoDup infl → NoDup (cells comps infl).
Proof.
  intros Hc Hi. unfold cells. apply NoDup_bind; [| |done].
  - intros v1 v2 c _ _ H1 H2.
    apply list_elem_of_fmap in H1 as (i1 & -> & _).
    apply list_elem_of_fmap in H2 as (i2 & [= -> _] & _). done.
  - intros v _. apply NoDup_fmap_2; [|done]. by intros i1 i2 [= ->].
Qed.

(** What was written row by row is read back row by row. *)
Lemma write_then_read (d : skin_data) comps infl wl :
  NoDup comps → NoDup infl →
  (λ c, default 0%Q (write_weights (cells comps infl)
                        (weight_of d <$> cells comps infl) wl !! c))
    <$> cells comps infl
  = weight_of d <$> cells comps infl.
Proof.
  intros Hc Hi. apply list_fmap_ext. intros pos c Hpos.
  rewrite write_weights_same; [done|by apply cells_NoDup|].
  by eapply list_elem_of_lookup_2.
Qed.

(** ** Consequences of a complete run *)

Lemma transplant_runs s source target ssh sk tsh nvs nvt :
  get_deform_shape source s = Ok (Some ssh) →
  (get_skin_cluster source s).1 = Ok (Some sk) →
  get_deform_shape target s = Ok (Some tsh) →
  mesh_vertices s ssh = Some nvs →
  mesh_vertices s tsh = Some nvt →
  ∃ nm hist d,
    nodes s !! sk = Some (Node nm hist (SkinCluster d))
    ∧ move_skin source target s = (Ok tt, transplant_result s target sk nm hist d nvs nvt).
Proof.
  intros Hs Hk Ht Hms Hmt.
  destruct (get_skin_cluster source s) as [r s1] eqn:E. cbn in Hk. subst r.
  destruct (get_skin_cluster_inv _ _ _ _ E) as (nm & hist & d & Hsk & ->).
  exists nm, hist, d. split; [done|]. by eapply move_skin_run.
Qed.

Lemma transplant_result_target s target sk nm hist d nvs nvt :
  nodes (transplant_result s target sk nm hist d nvs nvt) !! new_handle s
  = Some (Node ("MERGED__" +:+ nm) [] (SkinCluster (transplanted_skin s sk d nvs nvt))).
Proof. apply lookup_insert_eq. Qed.

Lemma transplant_result_dag s target sk nm hist d nvs nvt :
  nodes s !! sk = Some (Node nm hist (SkinCluster d)) →
  dag_le s (transplant_result s target sk nm hist d nvs nvt).
Proof.
  intros Hsk. eapply dag_le_nodes; [|done].
  eapply dag_le_transplant;
    [done|done|apply new_handle_fresh|apply grouping_handle_fresh].
Qed.

Lemma getWeights_inv s fn path nm hist d nv ws ic :
  nodes s !! fn = Some (Node nm hist (SkinCluster d)) →
  getWeights fn path (seq 0 nv) s = Ok (ws, ic) →
  ws = weights_of d nv ∧ ic = influenceCount d.
Proof.
  intros Hfn H. unfold getWeights in H.
  rewrite (R_bind_ok _ _ _ _ (skin_of_ok _ _ _ _ _ Hfn)) in H.
  apply R_bind_inv in H as (ws' & H & [= <- <-]).
  unfold getWeights_at in H.
  rewrite (R_bind_ok _ _ _ _ (skin_of_ok _ _ _ _ _ Hfn)) in H.
  apply R_bind_inv in H as (p & _ & [= <-]). done.
Qed.

(** C1. Let the source resolve to a deform shape, a mesh of [nv]
    vertices, with an effective skinCluster [sk], and the target to a
    deform shape, a mesh of [nv] vertices as well.  If reading the
    weights of [sk] over all vertices of the source gives the array [ws]
    and the influence count [ic], then [move_skin] completes; the handle
    [new_handle s], free before the run, now names a skinCluster, the
    one the run created; and reading its weights over all vertices of
    the target and the influence indices 0, ..., [ic]-1 gives [ws]
    again: cell by cell, it stores for vertex [v] and influence [i] what
    [sk] stores. *)
Theorem move_skin_weights_round_trip s source target ssh sk tsh nv ws ic :
  get_deform_shape source s = Ok (Some ssh) →
  (get_skin_cluster source s).1 = Ok (Some sk) →
  get_deform_shape target s = Ok (Some tsh) →
  mesh_vertices s ssh = Some nv →
  mesh_vertices s tsh = Some nv →
  getWeights sk ssh (seq 0 nv) s = Ok (ws, ic) →
  ∃ s', move_skin source target s = (Ok tt, s')
        ∧ nodes s !! new_handle s = None
        ∧ is_skinCluster s' (new_handle s) = true
        ∧ getWeights_at (new_handle s) tsh (seq 0 nv) (seq 0 ic) s' = Ok ws
        ∧ ∀ v i, v < nv → i < ic →
                 skin_weight s' (new_handle s) v i = skin_weight s sk v i.
Proof.
  intros Hs Hk Ht Hms Hmt Hw.
  destruct (transplant_runs _ _ _ _ _ _ _ _ Hs Hk Ht Hms Hmt)
    as (nm & hist & d & Hsk & Hrun).
  destruct (getWeights_inv _ _ _ _ _ _ _ _ _ Hsk Hw) as [-> ->].
  eexists. split; [exact Hrun|].
  pose proof (transplant_result_target s target sk nm hist d nv nv) as Htn.
  pose proof (transplant_result_dag s target sk nm hist d nv nv Hsk) as Hle.
  split; [apply new_handle_fresh|].
  split; [unfold is_skinCluster; by rewrite Htn|].
  split.
  - rewrite (getWeights_at_ok _ _ _ _ _ _ _ _ Htn
               (getDagPath_mesh _ _ _ (mesh_vertices_mono _ _ _ _ Hle Hmt))).
    f_equal. unfold weight_of at 1, transplanted_skin, weights_of. cbn [weightList].
    apply write_then_read; apply NoDup_seq.
  - intros v i Hv Hi. unfold skin_weight. rewrite Htn, Hsk. f_equal.
    unfold weight_of at 1, transplanted_skin, weights_of. cbn [weightList].
    rewrite write_weights_same; [done|by apply cells_NoDup; apply NoDup_seq|].
    apply cells_elem. rewrite !elem_of_seq. lia.
Qed.

Lemma source_values_lookup d i li lj b m :
  i < influenceCount d →
  multi_elements (bindPreMatrix d) !! i = Some (li, b) →
  multi_elements (matrix d) !! i = Some (lj, m) →
  source_values d !! i = Some (i, b, m).
Proof.
  intros Hi Hb Hm. apply zip3_seq_lookup; [done|..].
  - unfold bind_values. by rewrite list_lookup_fmap, Hb.
  - unfold mat_values. by rewrite list_lookup_fmap, Hm.
Qed.

Lemma source_inputs_lookup s sk d i li lj b m :
  i < influenceCount d →
  multi_elements (bindPreMatrix d) !! i = Some (li, b) →
  multi_elements (matrix d) !! i = Some (lj, m) →
  source_inputs s sk d !! i
  = Some (i, head (conn_inputs s (sk, A_bindPreMatrix li)),
             head (conn_inputs s (sk, A_matrix lj))).
Proof.
  intros Hi Hb Hm. apply zip3_seq_lookup; [done|..].
  - unfold bind_inputs. by rewrite list_lookup_fmap, Hb.
  - unfold mat_inputs. by rewrite list_lookup_fmap, Hm.
Qed.

Lemma bound_conns_no_slot s t g ox (l : list nat) :
  t = new_handle s →
  Forall (λ c : plug * plug, ∀ i, slot_of t i c.2 → i ∉ l)
    (bind_conns t g ox (conns s)).
Proof.
  intros ->. apply bind_conns_Forall.
  - apply Forall_forall. intros c Hc i Hslot.
    destruct (new_handle_not_conn s c Hc) as [_ Hne].
    exfalso. apply Hne. by destruct Hslot as [-> | ->].
  - by intros i [?|?].
  - by intros x _ i [?|?].
Qed.

Lemma transplant_result_conns s target sk nm hist d nvs nvt :
  conns (transplant_result s target sk nm hist d nvs nvt)
  = bind_conns (new_handle s) (grouping_handle s) (deformed_shape s target) (conns s)
    ++ added_conns (new_handle s) (source_inputs s sk d).
Proof.
  unfold transplant_result. cbn [conns]. apply wire_fresh.
  - by apply bound_conns_no_slot.
  - apply zip3_seq_NoDup.
Qed.

Lemma transplant_result_inputs s target sk nm hist d nvs nvt a :
  a ≠ A_input0_groupId → a ≠ A_other "instObjGroups" →
  conn_inputs (transplant_result s target sk nm hist d nvs nvt) (new_handle s, a)
  = (filter (λ c : plug * plug, c.2 = (new_handle s, a))
       (added_conns (new_handle s) (source_inputs s sk d))).*1.
Proof.
  intros H1 H2. unfold conn_inputs.
  rewrite transplant_result_conns, filter_app, bind_conns_filter by done.
  rewrite filter_none; [done|]. apply Forall_forall. intros c Hc E.
  destruct (new_handle_not_conn s c Hc) as [_ Hne]. by rewrite E in Hne.
Qed.

Lemma added_conns_elem t l c :
  c ∈ added_conns t l →
  ∃ i bi mi, (i, bi, mi) ∈ l
             ∧ ((c.2 = (t, A_bindPreMatrix i) ∧ bi = Some c.1)
                ∨ (c.2 = (t, A_matrix i) ∧ mi = Some c.1)).
Proof.
  unfold added_conns. intros Hc.
  apply list_elem_of_bind in Hc as ([[i bi] mi] & Hc & Hx). cbn in Hc.
  exists i, bi, mi. split; [done|].
  apply elem_of_app in Hc as [Hc|Hc].
  - destruct bi; [|by apply elem_of_nil in Hc].
    apply list_elem_of_singleton in Hc. subst c. by left.
  - destruct mi; [|by apply elem_of_nil in Hc].
    apply list_elem_of_singleton in Hc. subst c. by right.
Qed.

Lemma filter_fst_nonempty {A B} (P : A * B → Prop) `{∀ x, Decision (P x)} l :
  (filter P l).*1 ≠ [] → ∃ c, c ∈ l ∧ P c.
Proof.
  destruct (filter P l) as [|c l'] eqn:E; [done|]. intros _. exists c.
  assert (c ∈ filter P l) as Hc by (rewrite E; by left).
  apply list_elem_of_filter in Hc as [? ?]. done.
Qed.

Lemma head_Some_nonempty {A} (l : list A) x : Some x = head l → l ≠ [].
Proof. by destruct l. Qed.

Lemma option_list_head_nil {A} (l : list A) : option_list (head l) ≠ [] ↔ l ≠ [].
Proof. by destruct l. Qed.

(** C3 (what the code does).  The loops pair the index range with the
    lists of the source's existing elements, so slot [i] of the new
    skinCluster is filled from the [i]-th existing element of each
    source array, whatever index that element has.  In a complete run of
    [move_skin], for every [i] below the influence count such that the
    [i]-th bindPreMatrix element of the source (index [li], value [b])
    and its [i]-th matrix element (index [lj], value [m]) exist, slot
    [i] of the new skinCluster holds [b] and [m], whether or not those
    elements are connected; its bindPreMatrix (matrix) slot has an
    incoming connection exactly when the source element at [li] ([lj])
    has one, and then from the same plug; and no slot of the new
    skinCluster has a connection otherwise.  Only when the source arrays
    have no gap is this the copy slot by slot: with a gap, [li] and [lj]
    differ from [i] and from each other, and a slot of the new
    skinCluster gets a value and a connection that the source slot of
    the same index does not have. *)
Theorem move_skin_copies_slots s source target ssh sk tsh nvs nvt nm hist d :
  get_deform_shape source s = Ok (Some ssh) →
  (get_skin_cluster source s).1 = Ok (Some sk) →
  nodes s !! sk = Some (Node nm hist (SkinCluster d)) →
  get_deform_shape target s = Ok (Some tsh) →
  mesh_vertices s ssh = Some nvs →
  mesh_vertices s tsh = Some nvt →
  ∃ s', move_skin source target s = (Ok tt, s') ∧
    (∀ i li lj b m,
        i < influenceCount d →
        multi_elements (bindPreMatrix d) !! i = Some (li, b) →
        multi_elements (matrix d) !! i = Some (lj, m) →
        slot_value s' (new_handle s, A_bindPreMatrix i) = Some b
        ∧ slot_value s' (new_handle s, A_matrix i) = Some m
        ∧ (conn_inputs s' (new_handle s, A_bindPreMatrix i) ≠ []
           ↔ conn_inputs s (sk, A_bindPreMatrix li) ≠ [])
        ∧ (conn_inputs s' (new_handle s, A_matrix i) ≠ []
           ↔ conn_inputs s (sk, A_matrix lj) ≠ [])
        ∧ conn_inputs s' (new_handle s, A_bindPreMatrix i)
          = option_list (head (conn_inputs s (sk, A_bindPreMatrix li)))
        ∧ conn_inputs s' (new_handle s, A_matrix i)
          = option_list (head (conn_inputs s (sk, A_matrix lj))))
    ∧ (∀ j, conn_inputs s' (new_handle s, A_bindPreMatrix j) ≠ [] →
            ∃ lj b, multi_elements (bindPreMatrix d) !! j = Some (lj, b)
                    ∧ conn_inputs s (sk, A_bindPreMatrix lj) ≠ [])
    ∧ (∀ j, conn_inputs s' (new_handle s, A_matrix j) ≠ [] →
            ∃ lj m, multi_elements (matrix d) !! j = Some (lj, m)
                    ∧ conn_inputs s (sk, A_matrix lj) ≠ []).
Proof.
  intros Hs Hk Hsk Ht Hms Hmt.
  destruct (transplant_runs _ _ _ _ _ _ _ _ Hs Hk Ht Hms Hmt)
    as (nm' & hist' & d' & Hsk' & Hrun).
  rewrite Hsk in Hsk'. injection Hsk' as <- <- <-.
  eexists. split; [exact Hrun|].
  pose proof (transplant_result_target s target sk nm hist d nvs nvt) as Htn.
  split_and!.
  - intros i li lj b m Hi Hb Hm.
    pose proof (source_values_lookup _ _ _ _ _ _ Hi Hb Hm) as Hv.
    pose proof (source_inputs_lookup s sk _ _ _ _ _ _ Hi Hb Hm) as Hin.
    destruct (write_values_at (source_values d) empty_skin _ _ _ _
                (zip3_seq_NoDup _ _ _) Hv)
      as [Hvb Hvm].
    destruct (added_conns_inputs (new_handle s) (source_inputs s sk d) _ _ _ _
                (zip3_seq_NoDup _ _ _) Hin)
      as [Hcb Hcm].
    unfold slot_value. cbn [fst snd]. rewrite Htn.
    rewrite !transplant_result_inputs, Hcb, Hcm by done.
    rewrite !option_list_head_nil. done.
  - intros j Hj. rewrite transplant_result_inputs in Hj by done.
    apply filter_fst_nonempty in Hj as (c & Hc & Hdst).
    apply added_conns_elem in Hc as (i & bi & mi & Hx & [[E ->]|[E _]]);
      rewrite Hdst in E; [|done]. injection E as <-.
    apply zip3_seq_elem in Hx as (_ & Hb & _).
    unfold bind_inputs in Hb. apply list_lookup_fmap_Some in Hb as ([lj b] & Hb & Hh).
    exists lj, b. split; [done|]. by eapply head_Some_nonempty.
  - intros j Hj. rewrite transplant_result_inputs in Hj by done.
    apply filter_fst_nonempty in Hj as (c & Hc & Hdst).
    apply added_conns_elem in Hc as (i & bi & mi & Hx & [[E _]|[E ->]]);
      rewrite Hdst in E; [done|]. injection E as <-.
    apply zip3_seq_elem in Hx as (_ & _ & Hm).
    unfold mat_inputs in Hm. apply list_lookup_fmap_Some in Hm as ([lj m] & Hm & Hh).
    exists lj, m. split; [done|]. by eapply head_Some_nonempty.
Qed.






(** ** Where the loops and the search stop *)

Lemma zip3_seq_beyond {B C} n (l2 : list B) (l3 : list C) j :
  n ≤ j ∨ length l2 ≤ j ∨ length l3 ≤ j →
  j ∉ (zip3 (seq 0 n) l2 l3).*1.*1.
Proof.
  intros H. rewrite zip3_seq_indices, elem_of_seq.
  unfold zip3. rewrite !length_zip_with, length_seq. lia.
Qed.

(** Beyond the shortest of the index range and the two element lists
    the loops do nothing: such a slot of the new skinCluster holds no
    value and has no connection. *)
Theorem move_skin_stops_at_shortest_list
    s source target ssh sk tsh nvs nvt nm hist d :
  get_deform_shape source s = Ok (Some ssh) →
  (get_skin_cluster source s).1 = Ok (Some sk) →
  nodes s !! sk = Some (Node nm hist (SkinCluster d)) →
  get_deform_shape target s = Ok (Some tsh) →
  mesh_vertices s ssh = Some nvs →
  mesh_vertices s tsh = Some nvt →
  ∃ s', move_skin source target s = (Ok tt, s') ∧
    ∀ j, influenceCount d ≤ j
         ∨ length (multi_elements (bindPreMatrix d)) ≤ j
         ∨ length (multi_elements (matrix d)) ≤ j →
         slot_value s' (new_handle s, A_bindPreMatrix j) = None
         ∧ slot_value s' (new_handle s, A_matrix j) = None
         ∧ conn_inputs s' (new_handle s, A_bindPreMatrix j) = []
         ∧ conn_inputs s' (new_handle s, A_matrix j) = [].
Proof.
  intros Hs Hk Hsk Ht Hms Hmt.
  destruct (transplant_runs _ _ _ _ _ _ _ _ Hs Hk Ht Hms Hmt)
    as (nm' & hist' & d' & Hsk' & Hrun).
  rewrite Hsk in Hsk'. injection Hsk' as <- <- <-.
  eexists. split; [exact Hrun|]. intros j Hj.
  pose proof (transplant_result_target s target sk nm hist d nvs nvt) as Htn.
  assert (j ∉ (source_values d).*1.*1) as Hv.
  { apply zip3_seq_beyond. unfold bind_values, mat_values.
    by rewrite !length_fmap. }
  assert (j ∉ (source_inputs s sk d).*1.*1) as Hi.
  { apply zip3_seq_beyond. unfold bind_inputs, mat_inputs.
    by rewrite !length_fmap. }
  destruct (write_values_other (source_values d) empty_skin j Hv) as [Hb Hm].
  unfold slot_value. cbn [fst snd]. rewrite Htn.
  unfold transplanted_skin. cbn [bindPreMatrix matrix]. rewrite Hb, Hm.
  rewrite !transplant_result_inputs by done.
  rewrite !added_conns_inputs_other; [done|..];
    intros i [[= <-]|[= <-]]; done.
Qed.

(** A candidate with nothing connected into its [input[0].groupId]
    stops the search: indexing the empty list of inputs raises
    IndexError (line 50), whatever the candidates after it are. *)
Theorem get_skin_cluster_no_grouping_plug s ob shape hist pre k post :
  get_deform_shape ob s = Ok (Some shape) →
  listHistory shape s = Ok hist →
  candidates s hist = pre ++ k :: post →
  Forall (not_reaching s ob shape) pre →
  grouping_plug s k = None →
  get_skin_cluster ob s = (Raise IndexError, s).
Proof.
  intros Hs Hh Hc Hpre Hk.
  rewrite (get_skin_cluster_unfold _ _ _ _ Hs Hh), Hc.
  rewrite (scan_skins_skip _ _ _ _ _ Hpre). cbn [scan_skins].
  rewrite (liftR_bind_ok _ _ _ (conn_inputs s (k, A_input0_groupId))); [|done].
  apply liftR_bind_raise. unfold grouping_plug in Hk. unfold indexR.
  by destruct (conn_inputs s (k, A_input0_groupId)).
Qed.

(** ** The properties on the example scenes *)

Lemma get_deform_shape_resolves_witness :
  get_deform_shape 1 demo_scene = Ok (Some 2)
  ∧ get_deform_shape 6 demo_scene = Ok None.
Proof.
  split.
  - apply (proj1 (get_deform_shape_resolves demo_scene 1 1 [2; 3] eq_refl eq_refl)
             [] 2 [3]); [reflexivity | constructor | reflexivity |].
    repeat constructor.
  - apply (proj2 (get_deform_shape_resolves demo_scene 6 6 [7; 8] eq_refl eq_refl)).
    + cbn. lia.
    + repeat constructor.
Defined.

Lemma get_skin_cluster_first_effective_witness :
  get_skin_cluster 1 demo_scene = (Ok (Some 10), force_distribution 10 1 demo_scene)
  ∧ get_skin_cluster 4 demo_scene = (Ok None, demo_scene).
Proof.
  split.
  - apply (proj1 (get_skin_cluster_first_effective demo_scene 1 2 [2; 11; 10; 3]
                    eq_refl eq_refl) [11] 10 [] (20, A_other "groupId")).
    + reflexivity.
    + constructor; [|constructor]. exists (21, A_other "groupId"). split; reflexivity.
    + reflexivity.
    + reflexivity.
  - apply (proj2 (get_skin_cluster_first_effective demo_scene 4 5 [5; 11]
                    eq_refl eq_refl)).
    constructor; [|constructor]. exists (21, A_other "groupId"). split; reflexivity.
Defined.

Lemma move_skin_weights_round_trip_witness :
  ∃ s', move_skin 1 4 demo_scene = (Ok tt, s')
        ∧ getWeights_at (new_handle demo_scene) 5 (seq 0 3) (seq 0 3) s'
          = Ok demo_weights
        ∧ skin_weight s' (new_handle demo_scene) 0 1 = skin_weight demo_scene 10 0 1.
Proof.
  destruct (move_skin_weights_round_trip demo_scene 1 4 2 10 5 3 demo_weights 3)
    as (s' & Hrun & _ & _ & Hread & Htable); try (vm_compute; reflexivity).
  exists s'. split; [exact Hrun|]. split; [exact Hread|].
  apply Htable; lia.
Defined.

Lemma move_skin_copies_slots_witness :
  ∃ s', move_skin 1 4 gapped_scene = (Ok tt, s')
        ∧ slot_value gapped_scene (10, A_bindPreMatrix 1) = None
        ∧ conn_inputs gapped_scene (10, A_bindPreMatrix 1) = []
        ∧ slot_value s' (new_handle gapped_scene, A_bindPreMatrix 1)
          = Some offset_matrix
        ∧ conn_inputs s' (new_handle gapped_scene, A_bindPreMatrix 1)
          = [(31, A_other "worldInverseMatrix")]
        ∧ slot_value s' (new_handle gapped_scene, A_matrix 1) = Some offset_matrix
        ∧ conn_inputs s' (new_handle gapped_scene, A_matrix 1)
          = [(31, A_other "worldMatrix")].
Proof.
  destruct (move_skin_copies_slots gapped_scene 1 4 2 10 5 3 3
              "skinCluster1" [10] gapped_skin)
    as (s' & Hrun & Hslots & _); try (vm_compute; reflexivity).
  exists s'. split; [exact Hrun|].
  split; [reflexivity|]. split; [reflexivity|].
  destruct (Hslots 1 2 1 offset_matrix offset_matrix)
    as (Hb & Hm & _ & _ & Hcb & Hcm); [cbn; lia | reflexivity | reflexivity |].
  split; [exact Hb|]. split; [exact Hcb|]. split; [exact Hm | exact Hcm].
Defined.


Lemma get_skin_cluster_forces_neighbors_witness :
  ∃ nm hist d,
    nodes demo_scene !! 10 = Some (Node nm hist (SkinCluster d))
    ∧ journal (get_skin_cluster 1 demo_scene).2
      = journal demo_scene ++ [EvSetWeightDistribution 10 1].
Proof.
  destruct (get_skin_cluster_forces_neighbors demo_scene 1 10
              (get_skin_cluster 1 demo_scene).2)
    as (nm & hist & d & Hn & _ & _ & _ & _ & Hj); [vm_compute; reflexivity|].
  by exists nm, hist, d.
Defined.

Lemma move_skin_unresolved_source_witness :
  (∃ e, (e = AttributeError ∨ e = RuntimeError ∨ e = TypeError)
        ∧ move_skin 6 4 demo_scene = (Raise e, demo_scene))
  ∧ (∃ e, (e = AttributeError ∨ e = RuntimeError ∨ e = TypeError)
          ∧ move_skin 4 1 demo_scene = (Raise e, demo_scene)).
Proof.
  split.
  - apply (move_skin_unresolved_source demo_scene 6 4). left. reflexivity.
  - apply (move_skin_unresolved_source demo_scene 4 1). right. vm_compute. reflexivity.
Defined.

Lemma log_raises_NameError_witness :
  log "-- Please select a skinned mesh and a target mesh." false true demo_scene
  = (Raise (NameError "om"), demo_scene)
  ∧ displayed (main demo_scene).2 = displayed demo_scene.
Proof.
  split.
  - apply (proj1 log_raises_NameError). reflexivity.
  - apply (proj2 log_raises_NameError).
Defined.

Lemma log_rejects_warn_and_error_witness :
  log "both" true true demo_scene
  = (Raise (ValueError "Please specify only one of warn / error."), demo_scene)
  ∧ displayed (log "both" true true demo_scene).2 = displayed demo_scene.
Proof. apply (log_rejects_warn_and_error "both" true true demo_scene); reflexivity. Defined.

Lemma main_selection_error_not_logged_witness :
  main lone_selection = (Raise (NameError "om"), lone_selection)
  ∧ displayed (main lone_selection).2 = displayed lone_selection.
Proof. apply (main_selection_error_not_logged lone_selection). cbn. lia. Defined.

Lemma move_skin_stops_at_shortest_list_witness :
  ∃ s', move_skin 1 4 short_scene = (Ok tt, s')
        ∧ slot_value s' (new_handle short_scene, A_matrix 2) = None
        ∧ slot_value s' (new_handle short_scene, A_bindPreMatrix 2) = None.
Proof.
  destruct (move_skin_stops_at_shortest_list short_scene 1 4 2 10 5 3 3
              "skinCluster1" [10] short_skin)
    as (s' & Hrun & Hrest); try (vm_compute; reflexivity).
  exists s'. split; [exact Hrun|].
  destruct (Hrest 2) as (Hb & Hm & _); [right; left; cbn; lia|].
  by split.
Defined.

Lemma get_skin_cluster_no_grouping_plug_witness :
  get_skin_cluster 1 ungrouped_scene = (Raise IndexError, ungrouped_scene).
Proof.
  apply (get_skin_cluster_no_grouping_plug ungrouped_scene 1 2 [2; 11; 10; 3]
           [] 11 [10]); try reflexivity. constructor.
Defined.

(** The run on the example scene, step by step in the journal: the
    weightDistribution write of the lookup, the cleared selection, the
    new deformer, the six value writes, the three connections, the
    weights. *)
Example demo_run_journal :
  journal (move_skin 1 4 demo_scene).2
  = [EvSetWeightDistribution 10 1; EvSelectClear; EvCreateDeformer 32;
     EvSetValue (32, A_bindPreMatrix 0) offset_matrix;
     EvSetValue (32, A_matrix 0) identity_matrix;
     EvSetValue (32, A_bindPreMatrix 1) identity_matrix;
     EvSetValue (32, A_matrix 1) offset_matrix;
     EvSetValue (32, A_bindPreMatrix 2) identity_matrix;
     EvSetValue (32, A_matrix 2) identity_matrix;
     EvConnect (30, A_other "worldInverseMatrix") (32, A_bindPreMatrix 0);
     EvConnect (30, A_other "worldMatrix") (32, A_matrix 0);
     EvConnect (31, A_other "worldMatrix") (32, A_matrix 1);
     EvSetWeights 32].
Proof. vm_compute. reflexivity. Qed.

(** With two objects selected the entry point transplants the skin and
    then fails in [log]: the success line is never displayed. *)
Example demo_main :
  (main demo_scene).1 = Raise (NameError "om")
  ∧ is_skinCluster (main demo_scene).2 32 = true
  ∧ displayed (main demo_scene).2 = [].
Proof. vm_compute. repeat split. Qed.

(** The first row of the transplanted table. *)
Example demo_vertex_0 :
  getWeights_at 32 5 [0] (seq 0 3) (move_skin 1 4 demo_scene).2
  = Ok [(1 # 2)%Q; (1 # 2)%Q; 0%Q].
Proof. vm_compute. reflexivity. Qed.

(** * Further properties of the script *)

(** ** More on deform-shape resolution *)

Lemma intermediateObject_get_real s x b :
  intermediateObject_get x s = Ok b → is_real_shape s x = negb b.
Proof.
  unfold intermediateObject_get, PyNode, is_real_shape, raiseR, mbind, R_bind.
  destruct (nodes s !! x) as [[nm hist [|p [] g| |]]|]; cbn; intros H;
    try discriminate; by injection H as <-.
Qed.

Lemma filterR_real s xs :
  Forall (flag_readable s) xs →
  filterR (λ x, b ← intermediateObject_get x; mret (negb b)) xs s
  = Ok (filter (λ x, is_real_shape s x = true) xs).
Proof.
  induction 1 as [|x xs [b Hb] _ IH]; [done|]. cbn [filterR].
  rewrite (R_bind_ok _ _ _ (negb b)) by (by rewrite (R_bind_ok _ _ _ _ Hb)).
  rewrite (R_bind_ok _ _ _ _ IH).
  rewrite filter_cons, (intermediateObject_get_real _ _ _ Hb).
  by destruct b.
Qed.

(** An object that is a mesh, NURBS surface or NURBS curve resolves to
    what its parent resolves to, as long as the parent is not itself such
    a shape: the function steps up once (lines 18-19). *)
Theorem get_deform_shape_of_shape s ob n p :
  nodes s !! ob = Some n →
  is_geometry_type n = true →
  getParent ob s = Ok p →
  (∀ np, nodes s !! p = Some np → is_geometry_type np = false) →
  get_deform_shape ob s = get_deform_shape p s.
Proof.
  intros Hn Hg Hp Hnp. unfold get_deform_shape.
  rewrite (R_bind_ok _ _ _ n) by (unfold PyNode; by rewrite Hn).
  rewrite Hg, (R_bind_ok _ _ _ _ Hp).
  destruct (nodes s !! p) as [np|] eqn:Ep.
  - rewrite (R_bind_ok (PyNode p) _ _ np) by (unfold PyNode; by rewrite Ep).
    rewrite (Hnp _ eq_refl). by rewrite (R_bind_ok (mret p) _ _ p).
  - rewrite (R_bind_raise (PyNode p) _ _ MayaNodeError)
      by (unfold PyNode; by rewrite Ep).
    apply R_bind_raise. unfold getShapes.
    apply R_bind_raise. unfold PyNode. by rewrite Ep.
Qed.

(** A transform with exactly one child shape resolves to that child
    whatever the child is: the intermediate flag is not consulted
    (lines 21-22), so a lone intermediate shape is returned too. *)
Theorem get_deform_shape_single_child s ob t x :
  transform_of ob s = Ok t →
  getShapes t s = Ok [x] →
  get_deform_shape ob s = Ok (Some x).
Proof. intros Ht Hs. by rewrite (get_deform_shape_unfold _ _ _ _ Ht Hs). Qed.

(** With no child shape, or with two or more whose flags can all be
    read, the result is the first child not flagged intermediate, in the
    order [getShapes] lists them, and [None] when there is none
    (lines 24-25). *)
Theorem get_deform_shape_first_real s ob t shapes :
  transform_of ob s = Ok t →
  getShapes t s = Ok shapes →
  length shapes ≠ 1 →
  Forall (flag_readable s) shapes →
  get_deform_shape ob s
  = Ok (head (filter (λ x, is_real_shape s x = true) shapes)).
Proof.
  intros Ht Hs Hlen Hall. rewrite (get_deform_shape_unfold _ _ _ _ Ht Hs).
  apply Nat.eqb_neq in Hlen. rewrite Hlen.
  by rewrite (R_bind_ok _ _ _ _ (filterR_real _ _ Hall)).
Qed.

(** ** More on locating the effective skinCluster *)

Lemma scan_skins_found_inv ob shape skins s k s' :
  scan_skins ob shape skins s = (Ok (Some k), s') →
  ∃ pre post g,
    skins = pre ++ k :: post
    ∧ Forall (not_reaching s ob shape) pre
    ∧ grouping_plug s k = Some g
    ∧ reaches s ob shape g = true.
Proof.
  induction skins as [|skin rest IH]; [done|].
  cbn [scan_skins]. intros H.
  apply M_bind_inv in H as (ins & s1 & H1 & H). injection H1 as <- <-.
  apply M_bind_inv in H as (g & s1 & H1 & H).
  unfold liftR in H1. injection H1 as H1 <-.
  assert (grouping_plug s skin = Some g) as Hg.
  { unfold grouping_plug. unfold indexR in H1.
    destruct (conn_inputs s (skin, A_input0_groupId)) as [|g0 ?]; [done|].
    cbn in H1. by injection H1 as ->. }
  apply M_bind_inv in H as (outps & s1 & H2 & H). injection H2 as <- <-.
  apply M_bind_inv in H as (r & s1 & H2 & H).
  apply scan_outputs_inv in H2 as [(-> & -> & Hno)|(-> & Hset & Hyes)].
  - destruct (IH H) as (pre & post & g' & -> & Hpre & Hg' & Hr).
    exists (skin :: pre), post, g'. split_and!; try done.
    constructor; [|done]. by exists g.
  - injection H as <- <-. exists [], rest, g. split_and!; try done.
Qed.

Lemma get_skin_cluster_found_inv s ob k s' :
  get_skin_cluster ob s = (Ok (Some k), s') →
  ∃ shape hist pre post g,
    get_deform_shape ob s = Ok (Some shape)
    ∧ listHistory shape s = Ok hist
    ∧ candidates s hist = pre ++ k :: post
    ∧ Forall (not_reaching s ob shape) pre
    ∧ grouping_plug s k = Some g
    ∧ reaches s ob shape g = true.
Proof.
  unfold get_skin_cluster. intros H.
  apply M_bind_inv in H as ([shape|] & s1 & H1 & H); [|done].
  unfold liftR in H1. injection H1 as Hs <-.
  apply M_bind_inv in H as (hist & s1 & H1 & H).
  unfold liftR in H1. injection H1 as Hh <-.
  apply M_bind_inv in H as (skins & s1 & H1 & H). injection H1 as <- <-.
  destruct (0 <? length _); [|done].
  apply scan_skins_found_inv in H as (pre & post & g & Hc & Hpre & Hg & Hr).
  by exists shape, hist, pre, post, g.
Qed.

(** Whenever [get_skin_cluster] returns a skinCluster, that skinCluster
    is listed in the history of the object's deform shape, its grouping
    plug has an output on the deform shape or on the object, and every
    skinCluster listed before it has a grouping plug without such an
    output: the result is never an upstream skin that does not drive the
    shape. *)
Theorem get_skin_cluster_sound s ob k s' :
  get_skin_cluster ob s = (Ok (Some k), s') →
  ∃ shape hist pre post g,
    get_deform_shape ob s = Ok (Some shape)
    ∧ listHistory shape s = Ok hist
    ∧ candidates s hist = pre ++ k :: post
    ∧ Forall (not_reaching s ob shape) pre
    ∧ grouping_plug s k = Some g
    ∧ reaches s ob shape g = true.
Proof. apply get_skin_cluster_found_inv. Qed.

Lemma weightDistribution_set_raise s skin v e s' :
  weightDistribution_set skin v s = (Raise e, s') → s' = s.
Proof.
  unfold weightDistribution_set.
  destruct (nodes s !! skin) as [[nm hist []]|]; by intros [= _ <-].
Qed.

Lemma scan_outputs_quiet ob shape skin outps s r s' :
  scan_outputs ob shape skin outps s = (r, s') →
  s' = s ∨ ∃ k, r = Ok (Some k).
Proof.
  rewrite scan_outputs_eq. destruct (reaches_any ob shape outps).
  - unfold mbind, M_bind.
    destruct (weightDistribution_set skin 1 s) as [[[]|e] s1] eqn:E.
    + intros [= <- <-]. right. eauto.
    + intros [= <- <-]. left. by eapply weightDistribution_set_raise.
  - intros [= <- <-]. by left.
Qed.

Lemma scan_skins_quiet ob shape skins s r s' :
  scan_skins ob shape skins s = (r, s') →
  s' = s ∨ ∃ k, r = Ok (Some k).
Proof.
  induction skins as [|skin rest IH]; [intros [= <- <-]; by left|].
  cbn [scan_skins]. unfold mbind, M_bind, liftR.
  destruct (inputs (skin, A_input0_groupId) s) as [ins|e]; [|intros [= <- <-]; by left].
  destruct (indexR ins 0 s) as [g|e]; [|intros [= <- <-]; by left].
  destruct (outputs g s) as [outps|e]; [|intros [= <- <-]; by left].
  destruct (scan_outputs ob shape skin outps s) as [[[found|]|e] s1] eqn:E.
  - intros [= <- <-]. right. eauto.
  - apply scan_outputs_quiet in E as [->|[k [=]]]. apply IH.
  - apply scan_outputs_quiet in E as [->|[k [=]]]. intros [= <- <-]. by left.
Qed.

(** [get_skin_cluster] changes the scene only when it returns a
    skinCluster: if it returns [None] or raises, whatever the reason, the
    scene is the one it was given. *)
Theorem get_skin_cluster_quiet s ob :
  (get_skin_cluster ob s).2 = s
  ∨ ∃ k, (get_skin_cluster ob s).1 = Ok (Some k).
Proof.
  destruct (get_skin_cluster ob s) as [r s'] eqn:E. cbn.
  revert E. unfold get_skin_cluster, mbind, M_bind, liftR.
  destruct (get_deform_shape ob s) as [[shape|]|e]; try (intros [= <- <-]; by left).
  destruct (listHistory shape s) as [hist|e]; [|intros [= <- <-]; by left].
  destruct (ls_skinCluster hist s) as [skins|e]; [|intros [= <- <-]; by left].
  destruct (0 <? length skins); [|intros [= <- <-]; by left].
  apply scan_skins_quiet.
Qed.

Lemma force_distribution_dag s k v : dag_le s (force_distribution k v s).
Proof.
  unfold force_distribution.
  destruct (nodes s !! k) as [[nm hist [| |d|]]|] eqn:Hk;
    try (intros h n Hn; exists n; split; [done|by left]).
  eapply dag_le_nodes; [|done]. by eapply dag_le_overwrite_skin.
Qed.

Lemma force_distribution_conns s k v : conns (force_distribution k v s) = conns s.
Proof.
  unfold force_distribution. by destruct (nodes s !! k) as [[nm hist []]|].
Qed.

Lemma force_distribution_lookup s k v h :
  nodes (force_distribution k v s) !! h
  = (λ n, if decide (h = k) then
            match kind n with
            | SkinCluster d =>
                Node (nname n) (history n)
                  (SkinCluster (SkinData v (bindPreMatrix d) (matrix d)
                                  (weightList d) (influenceCount d)))
            | _ => n
            end
          else n) <$> nodes s !! h.
Proof.
  unfold force_distribution.
  destruct (decide (h = k)) as [->|Hne].
  - destruct (nodes s !! k) as [[nm hist [| |d|]]|] eqn:Hk; cbn;
      rewrite ?lookup_insert_eq, ?Hk; cbn; by rewrite ?decide_True.
  - destruct (nodes s !! k) as [[nm hist [| |d|]]|] eqn:Hk; cbn;
      rewrite ?lookup_insert_ne by done;
      destruct (nodes s !! h); cbn; by rewrite ?decide_False.
Qed.

Lemma force_distribution_is_skin s k v h :
  is_skinCluster (force_distribution k v s) h = is_skinCluster s h.
Proof.
  unfold is_skinCluster. rewrite force_distribution_lookup.
  destruct (nodes s !! h) as [[nm hist [| |d|]]|]; cbn; try case_decide; done.
Qed.

Lemma force_distribution_history s k v h :
  listHistory h (force_distribution k v s) = listHistory h s.
Proof.
  unfold listHistory, PyNode, mbind, R_bind. rewrite force_distribution_lookup.
  destruct (nodes s !! h) as [[nm hist [| |d|]]|]; cbn; try case_decide; done.
Qed.

Lemma not_reaching_conns s s' ob shape c :
  conns s' = conns s → not_reaching s ob shape c → not_reaching s' ob shape c.
Proof.
  unfold not_reaching, grouping_plug, reaches, conn_inputs, conn_outputs.
  by intros ->.
Qed.

(** Looking the skinCluster up again gives the same skinCluster: the
    write of the first lookup does not disturb the second, which leaves
    nodes and connections as the first left them. *)
Theorem get_skin_cluster_again s ob k s1 :
  get_skin_cluster ob s = (Ok (Some k), s1) →
  ∃ s2, get_skin_cluster ob s1 = (Ok (Some k), s2)
        ∧ nodes s2 = nodes s1
        ∧ conns s2 = conns s1
        ∧ selection s2 = selection s1.
Proof.
  intros H.
  destruct (get_skin_cluster_found_inv _ _ _ _ H)
    as (shape & hist & pre & post & g & Hs & Hh & Hc & Hpre & Hg & Hr).
  destruct (get_skin_cluster_inv _ _ _ _ H) as (nm & hi & d & Hk & ->).
  set (s1 := force_distribution k 1 s).
  pose proof (force_distribution_conns s k 1) as Hconns. fold s1 in Hconns.
  assert (candidates s1 hist = candidates s hist) as Hc1.
  { unfold candidates. apply list_filter_iff. intros h.
    unfold s1. by rewrite force_distribution_is_skin. }
  assert (nodes s1 !! k
          = Some (Node nm hi (SkinCluster (SkinData 1 (bindPreMatrix d) (matrix d)
                                             (weightList d) (influenceCount d)))))
    as Hk1.
  { unfold s1. rewrite force_distribution_lookup, Hk. cbn. by rewrite decide_True. }
  exists (force_distribution k 1 s1). split.
  - rewrite (get_skin_cluster_unfold s1 ob shape hist).
    + rewrite Hc1, Hc.
      rewrite (scan_skins_skip _ _ _ _ s1).
      2:{ eapply Forall_impl; [exact Hpre|]. intros c. by apply not_reaching_conns. }
      eapply scan_skins_found; [| |exact Hk1].
      * unfold grouping_plug, conn_inputs in *. by rewrite Hconns.
      * unfold reaches, conn_outputs in *. by rewrite Hconns.
    + eapply mono_get_deform_shape; [apply force_distribution_dag|done].
    + unfold s1. by rewrite force_distribution_history.
  - rewrite (force_distribution_skin _ _ _ _ _ _ Hk1). cbn [nodes conns selection].
    split; [|done]. by apply insert_id.
Qed.

(** ** The arrays of the new skinCluster *)

Lemma multi_set_append {A} (l : list A) (a : A) :
  multi_set (length l) a (Some <$> l) = Some <$> (l ++ [a]).
Proof.
  unfold multi_set. rewrite length_fmap.
  rewrite decide_False by lia. rewrite Nat.sub_diag. cbn.
  by rewrite fmap_app.
Qed.

Lemma write_values_cons x l d :
  write_values (x :: l) d = write_values l (write_slot d x).
Proof. done. Qed.

Lemma write_values_dense n : ∀ (bs ms pb pm : list (list Q)) d,
  bindPreMatrix d = Some <$> pb →
  matrix d = Some <$> pm →
  length pm = length pb →
  let k := n `min` (length bs `min` length ms) in
  bindPreMatrix (write_values (zip3 (seq (length pb) n) bs ms) d)
  = Some <$> (pb ++ take k bs)
  ∧ matrix (write_values (zip3 (seq (length pb) n) bs ms) d)
    = Some <$> (pm ++ take k ms).
Proof.
  induction n as [|n IH]; intros bs ms pb pm d Hb Hm Hlen k.
  { subst k. cbn. by rewrite !app_nil_r. }
  destruct bs as [|b bs]; [subst k; cbn; by rewrite !app_nil_r|].
  destruct ms as [|m ms].
  { subst k. cbn [length seq zip3 zip zip_with]. unfold write_values. cbn [foldl].
    assert (S n `min` (S (length bs) `min` 0) = 0) as -> by lia.
    cbn. by rewrite !app_nil_r. }
  subst k. cbn [seq length].
  change (zip3 (length pb :: seq (S (length pb)) n) (b :: bs) (m :: ms))
    with ((length pb, b, m) :: zip3 (seq (S (length pb)) n) bs ms).
  rewrite write_values_cons.
  assert (S (length pb) = length (pb ++ [b])) as E
    by (rewrite length_app; cbn; lia).
  rewrite E.
  destruct (IH bs ms (pb ++ [b]) (pm ++ [m]) (write_slot d (length pb, b, m)))
    as [-> ->].
  - cbn. rewrite Hb. apply multi_set_append.
  - cbn. rewrite Hm, <- Hlen. apply multi_set_append.
  - rewrite !length_app. cbn. lia.
  - rewrite <- !Nat.succ_min_distr. cbn [take]. by rewrite <- !app_assoc.
Qed.

(** The arrays of the skinCluster a complete run creates are dense:
    whatever the indices of the source's elements, the new bindPreMatrix
    and matrix arrays hold the source's values at the indices
    0, 1, ..., one after the other in the order the script iterates over
    them, as many as the shortest of the index range and the two value
    lists. *)
Theorem move_skin_arrays_dense s source target ssh sk tsh nvs nvt nm hist d :
  get_deform_shape source s = Ok (Some ssh) →
  (get_skin_cluster source s).1 = Ok (Some sk) →
  nodes s !! sk = Some (Node nm hist (SkinCluster d)) →
  get_deform_shape target s = Ok (Some tsh) →
  mesh_vertices s ssh = Some nvs →
  mesh_vertices s tsh = Some nvt →
  ∃ s' dt,
    move_skin source target s = (Ok tt, s')
    ∧ nodes s' !! new_handle s
      = Some (Node ("MERGED__" +:+ nm) [] (SkinCluster dt))
    ∧ bindPreMatrix dt = Some <$> take (copied_slots d) (bind_values d)
    ∧ matrix dt = Some <$> take (copied_slots d) (mat_values d).
Proof.
  intros Hs Hk Hsk Ht Hms Hmt.
  destruct (transplant_runs _ _ _ _ _ _ _ _ Hs Hk Ht Hms Hmt)
    as (nm' & hist' & d' & Hsk' & Hrun).
  rewrite Hsk in Hsk'. injection Hsk' as <- <- <-.
  eexists _, _. split; [exact Hrun|].
  split; [apply transplant_result_target|].
  unfold transplanted_skin. cbn [bindPreMatrix matrix].
  apply (write_values_dense (influenceCount d) (bind_values d) (mat_values d)
           [] [] empty_skin); done.
Qed.

(** ** What a complete run leaves alone *)

Lemma added_conns_dst t l :
  Forall (λ c : plug * plug, c.2.1 = t) (added_conns t l).
Proof.
  apply Forall_forall. intros c Hc.
  apply added_conns_elem in Hc as (i & bi & mi & _ & [[-> _]|[-> _]]); done.
Qed.

Lemma value_events_on t l : Forall (event_on t) (value_events t l).
Proof.
  unfold value_events. apply Forall_bind, Forall_forall. intros x _.
  by repeat constructor.
Qed.

Lemma connect_events_on t l : Forall (event_on t) (connect_events t l).
Proof.
  unfold connect_events. apply Forall_bind, Forall_forall. intros [[i bi] mi] _.
  destruct bi, mi; by repeat constructor.
Qed.

Lemma bind_conns_filter_node h g ox cs p :
  p.1 ≠ h → ox ≠ Some p.1 →
  filter (λ c : plug * plug, c.2 = p) (bind_conns h g ox cs)
  = filter (λ c : plug * plug, c.2 = p) cs.
Proof.
  intros H1 H2. destruct ox as [x|]; cbn; [|done].
  rewrite filter_app. rewrite (filter_none _ [_; _]); [by rewrite app_nil_r|].
  repeat constructor; cbn; intros E; subst p; cbn in *; congruence.
Qed.

(** A complete run leaves the source side as it found it, except for the
    weightDistribution of the source skinCluster, which is 1 afterwards:
    the source skinCluster keeps its name, history, array elements and
    weights, the connections into its plugs are the same, and its weights
    read as before.  The selection ends up empty.  Of the calls the
    script makes, the first three are the weightDistribution write, the
    clearing of the selection and the creation of the deformer; every
    call after them (value, connection, weights) addresses the new
    skinCluster. *)
Theorem move_skin_frame s source target ssh sk tsh nvs nvt nm hist d :
  get_deform_shape source s = Ok (Some ssh) →
  (get_skin_cluster source s).1 = Ok (Some sk) →
  nodes s !! sk = Some (Node nm hist (SkinCluster d)) →
  get_deform_shape target s = Ok (Some tsh) →
  mesh_vertices s ssh = Some nvs →
  mesh_vertices s tsh = Some nvt →
  ∃ s' evs,
    move_skin source target s = (Ok tt, s')
    ∧ nodes s' !! sk
      = Some (Node nm hist
                (SkinCluster (SkinData 1 (bindPreMatrix d) (matrix d)
                                (weightList d) (influenceCount d))))
    ∧ (∀ a, conn_inputs s' (sk, a) = conn_inputs s (sk, a))
    ∧ getWeights sk ssh (seq 0 nvs) s' = getWeights sk ssh (seq 0 nvs) s
    ∧ selection s' = []
    ∧ journal s'
      = journal s
        ++ [EvSetWeightDistribution sk 1; EvSelectClear;
            EvCreateDeformer (new_handle s)]
        ++ evs
    ∧ Forall (event_on (new_handle s)) evs.
Proof.
  intros Hs Hk Hsk Ht Hms Hmt.
  destruct (transplant_runs _ _ _ _ _ _ _ _ Hs Hk Ht Hms Hmt)
    as (nm' & hist' & d' & Hsk' & Hrun).
  rewrite Hsk in Hsk'. injection Hsk' as <- <- <-.
  exists (transplant_result s target sk nm hist d nvs nvt),
    (value_events (new_handle s) (source_values d)
     ++ connect_events (new_handle s) (source_inputs s sk d)
     ++ [EvSetWeights (new_handle s)]).
  assert (new_handle s ≠ sk) as Hne.
  { intros E. pose proof (new_handle_fresh s) as Hf. rewrite E in Hf. congruence. }
  assert (sk ≠ grouping_handle s) as Hng.
  { intros E. pose proof (grouping_handle_fresh s) as Hf. rewrite <- E in Hf.
    congruence. }
  assert (deformed_shape s target ≠ Some sk) as Hxsk.
  { intros E. destruct (deformed_shape_shape _ _ _ E) as (? & ? & ? & ? & ? & E').
    congruence. }
  assert (nodes (transplant_result s target sk nm hist d nvs nvt) !! sk
          = Some (Node nm hist
                    (SkinCluster (SkinData 1 (bindPreMatrix d) (matrix d)
                                    (weightList d) (influenceCount d))))) as Hsk'.
  { unfold transplant_result. cbn [nodes].
    rewrite lookup_insert_ne by done.
    apply bind_nodes_skin; [apply lookup_insert_eq|done..]. }
  split_and!; try done.
  - intros a. unfold conn_inputs.
    rewrite transplant_result_conns, filter_app, bind_conns_filter_node by done.
    rewrite (filter_none _ (added_conns _ _)); [by rewrite app_nil_r|].
    eapply Forall_impl; [apply added_conns_dst|].
    intros c Hc E. cbn in Hc. rewrite E in Hc. done.
  - pose proof (transplant_result_dag s target sk nm hist d nvs nvt Hsk) as Hle.
    rewrite (getWeights_ok _ _ _ _ _ _ nvs Hsk'
               (getDagPath_mesh _ _ _ (mesh_vertices_mono _ _ _ _ Hle Hms))).
    by rewrite (getWeights_ok _ _ _ _ _ _ nvs Hsk (getDagPath_mesh _ _ _ Hms)).
  - rewrite !Forall_app. split_and!.
    + apply value_events_on.
    + apply connect_events_on.
    + by repeat constructor.
Qed.

(** ** Weights when the vertex counts differ *)

Lemma zip_fmap_app_r {A B} (f : A → B) (l extra : list A) :
  zip l (f <$> (l ++ extra)) = zip l (f <$> l).
Proof. induction l as [|x l IH]; [done|]. cbn. by rewrite IH. Qed.

Lemma zip_app_fmap_l {A B} (f : A → B) (l extra : list A) :
  zip (l ++ extra) (f <$> l) = zip l (f <$> l).
Proof. induction l as [|x l IH]; [by destruct extra|]. cbn. by rewrite IH. Qed.

Lemma cells_app c1 c2 infl :
  cells (c1 ++ c2) infl = cells c1 infl ++ cells c2 infl.
Proof. unfold cells. apply bind_app. Qed.

Lemma write_weights_prefix (f : nat * nat → Q) a b infl wl :
  write_weights (cells (seq 0 a) infl) (f <$> cells (seq 0 b) infl) wl
  = write_weights (cells (seq 0 (a `min` b)) infl)
      (f <$> cells (seq 0 (a `min` b)) infl) wl.
Proof.
  unfold write_weights. f_equal.
  destruct (decide (a ≤ b)) as [Hab|Hab].
  - rewrite Nat.min_l by done.
    replace b with (a + (b - a)) by lia.
    by rewrite seq_app, cells_app, zip_fmap_app_r.
  - rewrite Nat.min_r by lia.
    replace a with (b + (a - b)) at 1 by lia.
    by rewrite seq_app, cells_app, zip_app_fmap_l.
Qed.

(** [move_skin] never compares the vertex counts.  With [nvs] source
    and [nvt] target vertices the run completes all the same, and the
    array read from the source is laid over the target's vertices
    position by position: the new skinCluster stores the source's weight
    for every vertex below both counts and every influence index below
    the influence count, and 0 everywhere else. *)
Theorem move_skin_weights_positional s source target ssh sk tsh nvs nvt nm hist d :
  get_deform_shape source s = Ok (Some ssh) →
  (get_skin_cluster source s).1 = Ok (Some sk) →
  nodes s !! sk = Some (Node nm hist (SkinCluster d)) →
  get_deform_shape target s = Ok (Some tsh) →
  mesh_vertices s ssh = Some nvs →
  mesh_vertices s tsh = Some nvt →
  ∃ s',
    move_skin source target s = (Ok tt, s')
    ∧ ∀ v i,
        skin_weight s' (new_handle s) v i
        = Some (if decide (v < nvs ∧ v < nvt ∧ i < influenceCount d)
                then weight_of d (v, i) else 0%Q).
Proof.
  intros Hs Hk Hsk Ht Hms Hmt.
  destruct (transplant_runs _ _ _ _ _ _ _ _ Hs Hk Ht Hms Hmt)
    as (nm' & hist' & d' & Hsk' & Hrun).
  rewrite Hsk in Hsk'. injection Hsk' as <- <- <-.
  eexists. split; [exact Hrun|]. intros v i.
  unfold skin_weight. rewrite transplant_result_target. f_equal.
  unfold weight_of at 1, transplanted_skin, weights_of. cbn [weightList].
  destruct (write_values_fields (source_values d) empty_skin) as (_ & -> & _).
  cbn [weightList empty_skin].
  rewrite write_weights_prefix.
  case_decide as Hin.
  - rewrite write_weights_same; [done| |].
    + apply cells_NoDup; apply NoDup_seq.
    + apply cells_elem. rewrite !elem_of_seq. lia.
  - rewrite write_weights_not_in; [by rewrite lookup_empty|].
    rewrite cells_elem, !elem_of_seq. lia.
Qed.

(** ** Runs that fail part of the way *)

Lemma move_skin_until_weights s source target ssh sk nvs nm hist d :
  get_deform_shape source s = Ok (Some ssh) →
  get_skin_cluster source s = (Ok (Some sk), force_distribution sk 1 s) →
  nodes s !! sk = Some (Node nm hist (SkinCluster d)) →
  mesh_vertices s ssh = Some nvs →
  is_Some (nodes s !! target) →
  move_skin source target s
  = set_target_weights target (new_handle s) (influenceCount d) (weights_of d nvs)
      (wired_result s target sk nm hist d).
Proof.
  intros Hs Hk Hsk Hms Ht. unfold move_skin.
  exec Hs.
  rewrite (liftR_bind_ok _ _ _ ssh) by done.
  exec (get_dag_path_mesh _ _ _ Hms).
  exec Hk.
  rewrite (force_distribution_skin _ _ _ _ _ _ Hsk).
  set (d1 := SkinData 1 _ _ _ _).
  set (s1 := Scene _ _ _ _ _).
  assert (nodes s1 !! sk = Some (Node nm hist (SkinCluster d1))) as Hsk1
    by apply lookup_insert_eq.
  assert (dag_le s s1) as Hle1.
  { eapply dag_le_nodes; [|done]. by eapply dag_le_overwrite_skin. }
  exec (get_mfn_skin_ok _ _ _ _ _ Hsk1).
  exec (mono_get_deform_shape _ _ _ _ Hle1 Hs).
  pose proof (mesh_vertices_mono _ _ _ _ Hle1 Hms) as Hms1.
  exec (get_mfn_mesh_ok _ _ _ Hms1).
  exec (get_complete_components_ok _ _ _ Hms1).
  exec (getWeights_ok _ _ _ _ _ _ nvs Hsk1 (getDagPath_mesh _ _ _ Hms1)).
  cbn [influenceCount d1].
  exec (select_clear_eq s1).
  set (s2 := Scene _ _ [] _ _).
  rewrite (liftR_bind_ok _ _ _ sk) by done.
  rewrite (liftR_bind_ok _ _ _ nm)
    by (by rewrite (R_bind_ok _ _ _ _ (PyNode_ok s2 _ _ Hsk1))).
  assert (is_Some (nodes s2 !! target)) as Htgt.
  { destruct Ht as [n Hn].
    destruct (Hle1 _ _ Hn) as (n' & Hn' & _). by exists n'. }
  exec (deformer_ok s2 _ _ Htgt).
  assert (dom (nodes s2) = dom (nodes s)) as Edom.
  { cbn. rewrite dom_insert_L.
    apply subseteq_union_1_L, singleton_subseteq_l. by eapply elem_of_dom_2. }
  rewrite (new_handle_eq s s2 Edom eq_refl), (grouping_handle_eq s s2 Edom eq_refl).
  rewrite (deformed_shape_set_skin s s2 sk nm hist d
             (Node nm hist (SkinCluster d1)) target Hsk I eq_refl).
  set (t := new_handle s). set (g := grouping_handle s).
  set (x := deformed_shape s target).
  set (s3 := Scene (<[t := _]> _) _ _ _ _).
  rewrite (liftR_bind_ok _ _ _ t) by done.
  assert (t ≠ sk) as Htsk.
  { intros E. pose proof (new_handle_fresh s) as Hf. fold t in Hf.
    rewrite E in Hf. congruence. }
  assert (sk ≠ g) as Hgsk.
  { intros E. pose proof (grouping_handle_fresh s) as Hf. fold g in Hf.
    rewrite <- E in Hf. congruence. }
  assert (x ≠ Some sk) as Hxsk.
  { intros E. destruct (deformed_shape_shape _ _ _ E) as (? & ? & ? & ? & ? & E').
    congruence. }
  assert (nodes s3 !! sk = Some (Node nm hist (SkinCluster d1))) as Hsk3.
  { cbn. rewrite lookup_insert_ne by done. by apply bind_nodes_skin. }
  assert (bindPreMatrix_elements sk s3 = Ok (multi_elements (bindPreMatrix d))) as Eb.
  { unfold bindPreMatrix_elements. by rewrite (R_bind_ok _ _ _ _ (skin_of_ok _ _ _ _ _ Hsk3)). }
  assert (matrix_elements sk s3 = Ok (multi_elements (matrix d))) as Em.
  { unfold matrix_elements. by rewrite (R_bind_ok _ _ _ _ (skin_of_ok _ _ _ _ _ Hsk3)). }
  assert (∀ p, p.2 ≠ A_input0_groupId → p.2 ≠ A_other "instObjGroups" →
               conn_inputs s3 p = conn_inputs s p) as Hin
    by (intros p; by apply (conn_inputs_bound s s3 t g x)).
  exec Eb.
  rewrite (liftR_bind_ok _ _ _ (bind_inputs s sk d))
    by (apply mapR_ok; intros y; by rewrite element_input_eq, Hin).
  exec Eb.
  exec Em.
  rewrite (liftR_bind_ok _ _ _ (mat_inputs s sk d))
    by (apply mapR_ok; intros y; by rewrite element_input_eq, Hin).
  exec Em.
  fold (bind_values d) (mat_values d) (source_values d) (source_inputs s sk d).
  assert (nodes s3 !! t = Some (Node ("MERGED__" +:+ nm) [] (SkinCluster empty_skin)))
    as Ht3 by apply lookup_insert_eq.
  exec (values_loop _ _ _ (source_values d) _ _ Ht3).
  exec (connect_loop t (source_inputs s sk d) _).
  cbn [nodes conns selection journal displayed s3 s2 s1].
  rewrite insert_insert_eq.
  set (dt := write_values _ _).
  unfold wired_result, set_target_weights. fold t g x.
  by rewrite <- !app_assoc.
Qed.

Lemma wired_result_dag s target sk nm hist d :
  nodes s !! sk = Some (Node nm hist (SkinCluster d)) →
  dag_le s (wired_result s target sk nm hist d).
Proof.
  intros Hsk. eapply dag_le_nodes; [|done].
  eapply dag_le_transplant;
    [done|done|apply new_handle_fresh|apply grouping_handle_fresh].
Qed.

Lemma mesh_vertices_None_mono s s' h n :
  dag_le s s' → nodes s !! h = Some n → mesh_vertices s h = None →
  mesh_vertices s' h = None.
Proof.
  unfold mesh_vertices. intros Hle Hn H. rewrite Hn in H.
  destruct (Hle _ _ Hn) as (n' & -> & [Hk|[_ Hs']]).
  - destruct n as [? ? k], n' as [? ? k']. cbn in Hk. by subst k'.
  - unfold is_skin_node in Hs'. by destruct n' as [? ? []].
Qed.

(** When the target's deform shape is not a mesh (a NURBS surface, say),
    [move_skin] fails only at line 138, after it has created the new
    skinCluster and copied values and connections onto it: the run ends
    in TypeError, the deformer stays in the scene without any weight,
    the selection stays cleared, and nothing is rolled back. *)
Theorem move_skin_target_not_mesh s source target ssh sk tsh nvs nm hist d ntsh :
  get_deform_shape source s = Ok (Some ssh) →
  (get_skin_cluster source s).1 = Ok (Some sk) →
  nodes s !! sk = Some (Node nm hist (SkinCluster d)) →
  mesh_vertices s ssh = Some nvs →
  get_deform_shape target s = Ok (Some tsh) →
  nodes s !! tsh = Some ntsh →
  mesh_vertices s tsh = None →
  ∃ s' dt,
    move_skin source target s = (Raise TypeError, s')
    ∧ nodes s' !! new_handle s
      = Some (Node ("MERGED__" +:+ nm) [] (SkinCluster dt))
    ∧ weightList dt = ∅
    ∧ bindPreMatrix dt = Some <$> take (copied_slots d) (bind_values d)
    ∧ selection s' = []
    ∧ journal s'
      = journal s
        ++ [EvSetWeightDistribution sk 1; EvSelectClear;
            EvCreateDeformer (new_handle s)]
        ++ value_events (new_handle s) (source_values d)
        ++ connect_events (new_handle s) (source_inputs s sk d).
Proof.
  intros Hs Hk Hsk Hms Ht Hn Hmt.
  destruct (get_skin_cluster source s) as [r s1] eqn:E. cbn in Hk. subst r.
  destruct (get_skin_cluster_inv _ _ _ _ E) as (nm' & hist' & d' & Hsk' & ->).
  rewrite Hsk in Hsk'. injection Hsk' as <- <- <-.
  exists (wired_result s target sk nm hist d), (write_values (source_values d) empty_skin).
  pose proof (wired_result_dag s target sk nm hist d Hsk) as Hle.
  assert (nodes (wired_result s target sk nm hist d) !! new_handle s
          = Some (Node ("MERGED__" +:+ nm) []
                    (SkinCluster (write_values (source_values d) empty_skin))))
    as Htn by apply lookup_insert_eq.
  split_and!; try done.
  - rewrite (move_skin_until_weights _ _ _ _ _ _ _ _ _ Hs E Hsk Hms
               (get_deform_shape_exists _ _ _ Ht)).
    unfold set_target_weights.
    exec (get_mfn_skin_ok _ _ _ _ _ Htn).
    exec (mono_get_deform_shape _ _ _ _ Hle Ht).
    apply liftR_bind_raise.
    destruct (Hle _ _ Hn) as (n' & Hn' & _).
    unfold get_mfn_mesh, get_mobject, getSelectionListByName, MFnMesh, mbind, R_bind.
    rewrite Hn'. cbn. by rewrite (mesh_vertices_None_mono _ _ _ _ Hle Hn Hmt).
  - by destruct (write_values_fields (source_values d) empty_skin) as (_ & -> & _).
  - apply (write_values_dense (influenceCount d) (bind_values d) (mat_values d)
             [] [] empty_skin); done.
Qed.

(** When the source's deform shape is not a mesh, [move_skin] fails at
    line 112 with TypeError.  By then [get_skin_cluster] has run
    (line 110): the source skinCluster's weightDistribution has been set
    to 1, and that is all that has changed. *)
Theorem move_skin_source_not_mesh s source target ssh sk :
  get_deform_shape source s = Ok (Some ssh) →
  (get_skin_cluster source s).1 = Ok (Some sk) →
  get_dag_path ssh s = Ok ssh →
  mesh_vertices s ssh = None →
  move_skin source target s = (Raise TypeError, force_distribution sk 1 s).
Proof.
  intros Hs Hk Hdp Hms.
  destruct (get_skin_cluster source s) as [r s1] eqn:E. cbn in Hk. subst r.
  destruct (get_skin_cluster_inv _ _ _ _ E) as (nm & hist & d & Hsk & ->).
  unfold move_skin. exec Hs.
  rewrite (liftR_bind_ok _ _ _ ssh) by done.
  exec Hdp. exec E.
  pose proof (force_distribution_dag s sk 1) as Hle.
  assert (nodes (force_distribution sk 1 s) !! sk
          = Some (Node nm hist (SkinCluster (SkinData 1 (bindPreMatrix d) (matrix d)
                                               (weightList d) (influenceCount d)))))
    as Hsk1.
  { rewrite force_distribution_lookup, Hsk. cbn. by rewrite decide_True. }
  exec (get_mfn_skin_ok _ _ _ _ _ Hsk1).
  exec (mono_get_deform_shape _ _ _ _ Hle Hs).
  apply liftR_bind_raise.
  assert (∃ n, nodes s !! ssh = Some n) as [n Hn].
  { unfold get_dag_path, getSelectionListByName, mbind, R_bind in Hdp.
    destruct (nodes s !! ssh); [eauto|done]. }
  destruct (Hle _ _ Hn) as (n' & Hn' & _).
  unfold get_mfn_mesh, get_mobject, getSelectionListByName, MFnMesh, mbind, R_bind.
  rewrite Hn'. cbn. by rewrite (mesh_vertices_None_mono _ _ _ _ Hle Hn Hms).
Qed.

(** ** The entry point with two objects selected *)

Lemma main_two_selected_eq s a b :
  selection s = [a; b] →
  main s = ((move_skin a b;;
             msg ← liftR (λ s, Ok ("+ SkinMerge: Complete. Merged skin from "
                                    +:+ node_name s a +:+ " onto "
                                    +:+ node_name s b +:+ "."));
             log msg false false) s).
Proof.
  intros Hsel. unfold main.
  rewrite (liftR_bind_ok _ _ _ [a; b]) by (unfold selected; by rewrite Hsel).
  cbn [length Nat.eqb].
  rewrite (liftR_bind_ok _ _ _ a) by done.
  by rewrite (liftR_bind_ok _ _ _ b) by done.
Qed.

(** With exactly two objects selected the entry point runs [move_skin]
    on them in selection order and keeps whatever scene that run
    leaves; a failure of [move_skin] is the outcome of the run, and a
    successful transplant is followed by the failing [log] call, so the
    run ends in NameError with the transplant done. *)
Theorem main_two_selected s a b :
  selection s = [a; b] →
  (main s).2 = (move_skin a b s).2
  ∧ (main s).1 = match (move_skin a b s).1 with
                 | Ok _ => Raise (NameError "om")
                 | Raise e => Raise e
                 end.
Proof.
  intros Hsel. rewrite (main_two_selected_eq _ _ _ Hsel).
  unfold mbind at 1 3. unfold M_bind.
  destruct (move_skin a b s) as [[[]|e] s1]; [|done].
  unfold mbind, M_bind, liftR. cbn -[log].
  by rewrite log_unbound_name.
Qed.

(** No run of the entry point ends normally: whatever is selected, it
    ends in an exception. *)
Theorem main_never_returns s : ∃ e, (main s).1 = Raise e.
Proof.
  destruct (decide (length (selection s) = 2)) as [Hl|Hl].
  - destruct (selection s) as [|a [|b [|? ?]]] eqn:Hsel; try done.
    rewrite (main_two_selected_eq _ _ _ Hsel).
    unfold mbind at 1. unfold M_bind.
    destruct (move_skin a b s) as [[[]|e] s1]; [|by eexists].
    unfold mbind, M_bind, liftR. cbn -[log].
    rewrite log_unbound_name by done. by eexists.
  - rewrite (main_wrong_selection _ Hl). by eexists.
Qed.

(** ** Instances on the example scenes *)

Lemma get_deform_shape_of_shape_witness :
  get_deform_shape 3 demo_scene = get_deform_shape 1 demo_scene.
Proof.
  apply (get_deform_shape_of_shape demo_scene 3
           (Node "pCubeShape1Orig" [3] (Shape 1 true (Mesh 3))) 1);
    try reflexivity.
  intros np H. vm_compute in H. injection H as <-. reflexivity.
Defined.

Lemma get_deform_shape_single_child_witness :
  get_deform_shape 6 lone_orig_scene = Ok (Some 7)
  ∧ flagged_intermediate lone_orig_scene 7.
Proof.
  split; [|reflexivity].
  apply (get_deform_shape_single_child lone_orig_scene 6 6 7); reflexivity.
Defined.

Lemma get_deform_shape_first_real_witness :
  get_deform_shape 6 demo_scene = Ok None
  ∧ get_deform_shape 1 demo_scene = Ok (Some 2).
Proof.
  split.
  - rewrite (get_deform_shape_first_real demo_scene 6 6 [7; 8]);
      [reflexivity | reflexivity | reflexivity | cbn; lia |].
    constructor; [by exists true|]. constructor; [by exists true|]. constructor.
  - rewrite (get_deform_shape_first_real demo_scene 1 1 [2; 3]);
      [reflexivity | reflexivity | reflexivity | cbn; lia |].
    constructor; [by exists false|]. constructor; [by exists true|]. constructor.
Defined.

Lemma get_skin_cluster_sound_witness :
  ∃ shape hist pre post g,
    get_deform_shape 1 demo_scene = Ok (Some shape)
    ∧ listHistory shape demo_scene = Ok hist
    ∧ candidates demo_scene hist = pre ++ 10 :: post
    ∧ Forall (not_reaching demo_scene 1 shape) pre
    ∧ grouping_plug demo_scene 10 = Some g
    ∧ reaches demo_scene 1 shape g = true.
Proof.
  apply (get_skin_cluster_sound demo_scene 1 10 (force_distribution 10 1 demo_scene)).
  vm_compute. reflexivity.
Defined.

Lemma get_skin_cluster_again_witness :
  ∃ s2, get_skin_cluster 1 (force_distribution 10 1 demo_scene) = (Ok (Some 10), s2)
        ∧ nodes s2 = nodes (force_distribution 10 1 demo_scene)
        ∧ conns s2 = conns (force_distribution 10 1 demo_scene)
        ∧ selection s2 = selection (force_distribution 10 1 demo_scene).
Proof.
  apply (get_skin_cluster_again demo_scene 1 10 (force_distribution 10 1 demo_scene)).
  vm_compute. reflexivity.
Defined.

Lemma move_skin_weights_positional_witness :
  ∃ s', move_skin 1 4 smaller_target_scene = (Ok tt, s')
        ∧ skin_weight s' (new_handle smaller_target_scene) 0 1 = Some (1#2)%Q
        ∧ skin_weight smaller_target_scene 10 2 0 = Some 1%Q
        ∧ skin_weight s' (new_handle smaller_target_scene) 2 0 = Some 0%Q.
Proof.
  destruct (move_skin_weights_positional smaller_target_scene 1 4 2 10 5 3 2
              "skinCluster1" [10] demo_skin)
    as (s' & Hrun & Hw); try (vm_compute; reflexivity).
  exists s'. split; [exact Hrun|].
  split; [rewrite (Hw 0 1); reflexivity|].
  split; [reflexivity|rewrite (Hw 2 0); reflexivity].
Defined.

Lemma move_skin_frame_witness :
  ∃ s' evs,
    move_skin 1 4 demo_scene = (Ok tt, s')
    ∧ nodes s' !! 10
      = Some (Node "skinCluster1" [10]
                (SkinCluster (SkinData 1 (bindPreMatrix demo_skin) (matrix demo_skin)
                                (weightList demo_skin) 3)))
    ∧ conn_inputs s' (10, A_matrix 1) = [(31, A_other "worldMatrix")]
    ∧ selection s' = []
    ∧ journal s'
      = [EvSetWeightDistribution 10 1; EvSelectClear;
         EvCreateDeformer (new_handle demo_scene)] ++ evs
    ∧ Forall (event_on (new_handle demo_scene)) evs.
Proof.
  destruct (move_skin_frame demo_scene 1 4 2 10 5 3 3 "skinCluster1" [10] demo_skin)
    as (s' & evs & Hrun & Hsk & Hin & _ & Hsel & Hj & Hon);
    try (vm_compute; reflexivity).
  exists s', evs. split; [exact Hrun|]. split; [exact Hsk|].
  split; [by rewrite Hin|]. split; [exact Hsel|]. split; [exact Hj|exact Hon].
Defined.

Lemma move_skin_arrays_dense_witness :
  ∃ s' dt,
    move_skin 1 4 sparse_scene = (Ok tt, s')
    ∧ nodes s' !! new_handle sparse_scene
      = Some (Node "MERGED__skinCluster1" [] (SkinCluster dt))
    ∧ bindPreMatrix dt
      = [Some offset_matrix; Some identity_matrix; Some offset_matrix]
    ∧ matrix dt
      = [Some identity_matrix; Some offset_matrix; Some identity_matrix].
Proof.
  apply (move_skin_arrays_dense sparse_scene 1 4 2 10 5 3 3
           "skinCluster1" [10] sparse_skin); vm_compute; reflexivity.
Defined.

Lemma move_skin_source_not_mesh_witness :
  move_skin 1 4 nurbs_source_scene
  = (Raise TypeError, force_distribution 10 1 nurbs_source_scene).
Proof.
  apply (move_skin_source_not_mesh nurbs_source_scene 1 4 2 10);
    vm_compute; reflexivity.
Defined.

Lemma move_skin_target_not_mesh_witness :
  ∃ s' dt,
    move_skin 1 4 nurbs_target_scene = (Raise TypeError, s')
    ∧ nodes s' !! new_handle nurbs_target_scene
      = Some (Node "MERGED__skinCluster1" [] (SkinCluster dt))
    ∧ weightList dt = ∅
    ∧ selection s' = [].
Proof.
  destruct (move_skin_target_not_mesh nurbs_target_scene 1 4 2 10 5 3
              "skinCluster1" [10] demo_skin
              (Node "nurbsPlaneShape1" [5] (Shape 4 false NurbsSurface)))
    as (s' & dt & Hrun & Hn & Hw & _ & Hsel & _); try (vm_compute; reflexivity).
  exists s', dt. by split_and!.
Defined.

Lemma main_two_selected_witness :
  (main demo_scene).2 = (move_skin 1 4 demo_scene).2
  ∧ (main demo_scene).1 = Raise (NameError "om").
Proof.
  destruct (main_two_selected demo_scene 1 4) as [H1 H2]; [reflexivity|].
  split; [exact H1|]. rewrite H2. vm_compute. reflexivity.
Defined.

(** On the scene with a gap, slot 2 of the source has a matrix value and
    a connected bindPreMatrix element, and slot 2 of the new skinCluster
    has neither a value nor a connection. *)
Example demo_gapped_slot_2 :
  slot_value gapped_scene (10, A_matrix 2) = Some identity_matrix
  ∧ conn_inputs gapped_scene (10, A_bindPreMatrix 2)
    = [(31, A_other "worldInverseMatrix")]
  ∧ slot_value (move_skin 1 4 gapped_scene).2 (32, A_matrix 2) = None
  ∧ slot_value (move_skin 1 4 gapped_scene).2 (32, A_bindPreMatrix 2) = None
  ∧ conn_inputs (move_skin 1 4 gapped_scene).2 (32, A_bindPreMatrix 2) = [].
Proof. vm_compute. repeat split. Qed.

(** After the run the new skinCluster is bound to the target: it is in
    the history of the target's shape, and the lookup on the target
    finds it. *)
Example demo_target_bound :
  listHistory 5 (move_skin 1 4 demo_scene).2 = Ok [5; 32; 11]
  ∧ (get_skin_cluster 4 (move_skin 1 4 demo_scene).2).1 = Ok (Some 32).
Proof. vm_compute. repeat split. Qed.
